(** * Authentication token lifecycle of the jwt-poc service

    A shallow embedding of the Go packages [utils] (signed access tokens),
    [services] (login and refresh flows), [handlers] (the refresh endpoint) and
    [middlewares] (credential dispatch), together with the parts of gorm,
    golang-jwt, uuid, time and strings they call.

    Go values are modelled as follows: [uint] as [N], [string] as [string],
    [[]byte] as [list byte], [time.Time] as a Unix time in nanoseconds ([Z]),
    a Go function returning [(v, error)] as a pair whose second component is an
    [option error] ([None] is Go's [nil] error).  Reads of the clock, of the
    random source, of the process environment and every store statement go
    through one state monad over a [World]. *)

From Stdlib Require Import ZArith NArith List String Ascii Bool Lia.
From Stdlib.Strings Require Import Byte.
Import ListNotations.

Open Scope string_scope.
Open Scope Z_scope.

(** ** Package strings *)

Module strings.

(** [strings.Split(s, sep)] for a one-byte separator: every separator ends a
    piece, so the result of splitting the empty string is one empty piece. *)
Fixpoint Split (s : string) (sep : ascii) : list string :=
  match s with
  | EmptyString => [EmptyString]
  | String c s' =>
      if Ascii.eqb c sep then EmptyString :: Split s' sep
      else match Split s' sep with
           | [] => [String c EmptyString]
           | p :: ps => String c p :: ps
           end
  end.

(** [strings.Cut]: the text before and after the first separator. *)
Fixpoint Cut (s : string) (sep : ascii) : option (string * string) :=
  match s with
  | EmptyString => None
  | String c s' =>
      if Ascii.eqb c sep then Some (EmptyString, s')
      else match Cut s' sep with
           | Some (a, b) => Some (String c a, b)
           | None => None
           end
  end.

(** [strings.SplitN(s, sep, n)] for a one-byte separator and [n >= 0]: at most
    [n] pieces, the last one being the unsplit remainder. *)
Fixpoint SplitN (s : string) (sep : ascii) (n : nat) : list string :=
  match n with
  | O => []
  | S O => [s]
  | S n' =>
      match Cut s sep with
      | None => [s]
      | Some (a, b) => a :: SplitN b sep n'
      end
  end.

Definition lower (c : ascii) : ascii :=
  let n := nat_of_ascii c in
  if (Nat.leb 65 n && Nat.leb n 90)%bool then ascii_of_nat (n + 32) else c.

(** [strings.EqualFold(s, t)] on its ASCII path: bytes are compared after
    folding [A-Z] onto [a-z].  Go folds whole Unicode runes; the two agree
    whenever one argument is ASCII text without the letters k and s (the only
    ASCII letters that have a non-ASCII fold partner).  The program calls it
    with the literal ["Bearer"] only. *)
Fixpoint EqualFold (s t : string) : bool :=
  match s, t with
  | EmptyString, EmptyString => true
  | String a s', String b t' => Ascii.eqb (lower a) (lower b) && EqualFold s' t'
  | _, _ => false
  end.

Fixpoint Contains (s : string) (c : ascii) : bool :=
  match s with
  | EmptyString => false
  | String a s' => Ascii.eqb a c || Contains s' c
  end.

End strings.

(** ** Package time *)

Definition Time := Z.
Definition Duration := Z.

Module time.
Definition Second : Duration := 1000000000.
Definition Minute : Duration := 60 * Second.
Definition Hour : Duration := 60 * Minute.
Definition Add (t : Time) (d : Duration) : Time := t + d.
Definition Before (t u : Time) : bool := t <? u.
End time.

(** ** Errors *)

Inductive claim_error : Type :=
| ErrTokenExpired
| ErrTokenNotValidYet.

Inductive error : Type :=
| ErrTokenMalformed
| ErrTokenUnverifiable
| ErrTokenSignatureInvalid
| ErrTokenInvalidClaims (causes : list claim_error)
| ErrInvalidKeyType
| ErrRecordNotFound
| ErrMissingWhereClause
| ErrConstraintFailed
| ErrStoreUnavailable.

(** ** The world the program runs in *)

Module User.
Record t : Type := mk
  { ID : N; Username : string; Email : string; PasswordHash : string; Role : string }.
Definition zero : t := mk 0%N "" "" "" "".
End User.

Module RefreshToken.
Record t : Type := mk
  { ID : N; UserID : N; Token : string; ExpiryDate : Time }.
Definition zero : t := mk 0%N 0%N "" 0.
End RefreshToken.

Module ApiKey.
Record t : Type := mk
  { Key : string; UserID : N; Client : string; Scope : string; IsActive : bool }.
Definition zero : t := mk "" 0%N "" "" false.
End ApiKey.

(** The three tables of config.DB.  Each list is kept in primary-key order, so
    that gorm's [First] (ORDER BY primary key LIMIT 1) is the first match.
    [refresh_tokens_seq] is the AUTOINCREMENT counter of the refresh_tokens
    table. *)
Record DB : Type := mkDB
  { users : list User.t;
    refresh_tokens : list RefreshToken.t;
    refresh_tokens_seq : N;
    api_keys : list ApiKey.t }.

(** The store together with what the program reads from outside: the process
    environment, and three streams giving the results of the successive calls
    of [time.Now()], of [uuid.New().String()], and whether the successive
    store statements fail at the driver level. *)
Record World : Type := mkWorld
  { store : DB;
    environ : string -> string;
    clock : nat -> Time;
    uuids : nat -> string;
    outage : nat -> bool }.

Definition M (A : Type) : Type := World -> A * World.

Definition ret {A : Type} (a : A) : M A := fun w => (a, w).

Definition bind {A B : Type} (m : M A) (k : A -> M B) : M B :=
  fun w => let (a, w') := m w in k a w'.

Notation "'let*' x ':=' m 'in' k" := (bind m (fun x => k))
  (at level 10, x pattern, m at level 100, k at level 200).

Definition tail {A : Type} (f : nat -> A) : nat -> A := fun n => f (S n).

Module os.
Definition Getenv (key : string) : M string := fun w => (environ w key, w).
End os.

Definition time_Now : M Time :=
  fun w => (clock w O,
            mkWorld (store w) (environ w) (tail (clock w)) (uuids w) (outage w)).

Definition uuid_New_String : M string :=
  fun w => (uuids w O,
            mkWorld (store w) (environ w) (clock w) (tail (uuids w)) (outage w)).

(** One store statement: it consumes one entry of the outage stream; when that
    entry is set the statement returns [down] and leaves the tables alone. *)
Definition statement {A : Type} (down : A) (run : DB -> A * DB) : M A :=
  fun w =>
    let w' := mkWorld (store w) (environ w) (clock w) (uuids w) (tail (outage w)) in
    if outage w O then (down, w')
    else let (a, d) := run (store w) in
         (a, mkWorld d (environ w) (clock w) (uuids w) (tail (outage w))).

(** ** Package gorm, as used on config.DB *)

Module gorm.

(** [DB.Where("token = ? AND expiry_date > ?", token, now).First(&oldToken)] *)
Definition First_RefreshToken (token : string) (now : Time)
  : M (RefreshToken.t * option error) :=
  statement (RefreshToken.zero, Some ErrStoreUnavailable)
    (fun d =>
       match find (fun r => String.eqb (RefreshToken.Token r) token
                            && (now <? RefreshToken.ExpiryDate r))
                  (refresh_tokens d) with
       | Some r => ((r, None), d)
       | None => ((RefreshToken.zero, Some ErrRecordNotFound), d)
       end).

(** [DB.First(&user, id)] *)
Definition First_User (id : N) : M (User.t * option error) :=
  statement (User.zero, Some ErrStoreUnavailable)
    (fun d =>
       match find (fun u => N.eqb (User.ID u) id) (users d) with
       | Some u => ((u, None), d)
       | None => ((User.zero, Some ErrRecordNotFound), d)
       end).

(** [DB.Where("key = ? AND is_active = ?", key, true).First(&apiKey)] *)
Definition First_ApiKey (key : string) : M (ApiKey.t * option error) :=
  statement (ApiKey.zero, Some ErrStoreUnavailable)
    (fun d =>
       match find (fun k => String.eqb (ApiKey.Key k) key
                            && Bool.eqb (ApiKey.IsActive k) true)
                  (api_keys d) with
       | Some k => ((k, None), d)
       | None => ((ApiKey.zero, Some ErrRecordNotFound), d)
       end).

(** [DB.Delete(&row)]: the row is named by its primary key; a zero key is
    refused before any statement is sent. *)
Definition Delete_RefreshToken (row : RefreshToken.t) : M (option error) :=
  if N.eqb (RefreshToken.ID row) 0 then ret (Some ErrMissingWhereClause)
  else
    statement (Some ErrStoreUnavailable)
      (fun d =>
         (None,
          mkDB (users d)
            (filter (fun r => negb (N.eqb (RefreshToken.ID r) (RefreshToken.ID row)))
                    (refresh_tokens d))
            (refresh_tokens_seq d) (api_keys d))).

(** [DB.Create(&row)] of a row whose ID is unset: the token column is unique,
    the primary key is drawn from the AUTOINCREMENT counter. *)
Definition Create_RefreshToken (row : RefreshToken.t) : M (option error) :=
  statement (Some ErrStoreUnavailable)
    (fun d =>
       if existsb (fun r => String.eqb (RefreshToken.Token r) (RefreshToken.Token row))
                  (refresh_tokens d)
       then (Some ErrConstraintFailed, d)
       else
         let id := N.succ (refresh_tokens_seq d) in
         (None,
          mkDB (users d)
            (refresh_tokens d ++
               [RefreshToken.mk id (RefreshToken.UserID row) (RefreshToken.Token row)
                  (RefreshToken.ExpiryDate row)])
            id (api_keys d))).

End gorm.

(** ** Package fiber: what a handler sees and what it answers *)

Inductive json : Type :=
| JString (s : string)
| JNumber (n : Z).

Inductive Local : Type :=
| LUint (n : N)
| LString (s : string).

(** A handler either writes a response (status and JSON object), or stores
    request-scoped values and passes on to the next handler, or panics. *)
Inductive Outcome : Type :=
| Respond (status : Z) (body : list (string * json))
| Next (locals : list (string * Local))
| Panic.

Record Ctx : Type := mkCtx
  { headers : list (string * string);
    form : list (string * string) }.

Fixpoint assoc (key : string) (l : list (string * string)) : string :=
  match l with
  | [] => ""
  | (k, v) :: l' => if String.eqb k key then v else assoc key l'
  end.

(** [c.Get(key)]: the header's value, or the empty string without it.  Header
    names are looked up as the program spells them. *)
Definition Get (c : Ctx) (key : string) : string := assoc key (headers c).

Definition FormValue (c : Ctx) (key : string) : string := assoc key (form c).

Definition StatusOK : Z := 200.
Definition StatusBadRequest : Z := 400.
Definition StatusUnauthorized : Z := 401.
Definition StatusInternalServerError : Z := 500.

(** ** Package jwt (github.com/golang-jwt/jwt/v5)

    The library is not part of the repository.  Its byte-level collaborators
    (base64url segments, encoding/json, the keyed hash) are an interface; the
    control flow of signing, parsing and validating is written out over it. *)

Module jwt.

Inductive Hash : Type := SHA256 | SHA384 | SHA512.

(** A NumericDate is a time truncated to [TimePrecision], one second: it is
    held here as the number of whole seconds since the Unix epoch, which is
    also what the token carries in its [exp] field. *)
Definition NumericDate := Z.

(** [jwt.NewNumericDate(t)], that is [t.Truncate(time.Second)]. *)
Definition NewNumericDate (t : Time) : NumericDate := t / time.Second.

Definition NumericDate_Time (d : NumericDate) : Time := d * time.Second.

(** The registered claims the validator inspects without parser options. *)
Record RegisteredClaims : Type := mkRegisteredClaims
  { ExpiresAt : option NumericDate;
    NotBefore : option NumericDate;
    IssuedAt : option NumericDate }.

Record Header : Type := mkHeader { typ : string; alg : string }.

(** The registered signing methods: the HMAC family, which takes a [[]byte]
    key, the RSA, RSA-PSS, ECDSA and EdDSA methods, which take a key object,
    and "none". *)
Inductive SigningMethod : Type :=
| SigningMethodHMAC (h : Hash)
| SigningMethodAsymmetric (name : string)
| SigningMethodNone.

Definition SigningMethodHS256 : SigningMethod := SigningMethodHMAC SHA256.

Definition Alg (m : SigningMethod) : string :=
  match m with
  | SigningMethodHMAC SHA256 => "HS256"
  | SigningMethodHMAC SHA384 => "HS384"
  | SigningMethodHMAC SHA512 => "HS512"
  | SigningMethodAsymmetric name => name
  | SigningMethodNone => "none"
  end.

(** The registry of signing methods, by the [alg] header value. *)
Definition GetSigningMethod (a : string) : option SigningMethod :=
  if String.eqb a "HS256" then Some (SigningMethodHMAC SHA256)
  else if String.eqb a "HS384" then Some (SigningMethodHMAC SHA384)
  else if String.eqb a "HS512" then Some (SigningMethodHMAC SHA512)
  else if existsb (String.eqb a)
            ["RS256"; "RS384"; "RS512"; "PS256"; "PS384"; "PS512";
             "ES256"; "ES384"; "ES512"; "EdDSA"]
       then Some (SigningMethodAsymmetric a)
  else if String.eqb a "none" then Some SigningMethodNone
  else None.

End jwt.

(** The claims type of package utils: [UserID], [Role] and the embedded
    [jwt.RegisteredClaims]. *)
Module Claims.
Record t : Type := mk
  { UserID : N; Role : string; Registered : jwt.RegisteredClaims }.
Definition zero : t := mk 0%N "" (jwt.mkRegisteredClaims None None None).
End Claims.

(** What golang-jwt takes from other packages: [EncodeSegment] and
    [DecodeSegment] (base64.RawURLEncoding), [hmac] (crypto/hmac over the
    given hash; key first, message second), and encoding/json on the token
    header and on [Claims]. *)
Class JwtLib : Type := mkJwtLib
  { EncodeSegment : list byte -> string;
    DecodeSegment : string -> option (list byte);
    hmac : jwt.Hash -> list byte -> string -> list byte;
    marshalHeader : jwt.Header -> list byte;
    unmarshalHeader : list byte -> option jwt.Header;
    marshalClaims : Claims.t -> list byte;
    unmarshalClaims : list byte -> option Claims.t }.

(** The contract of those collaborators that the program relies on: decoding
    undoes encoding, and an encoded segment is written in the base64url
    alphabet, which has no dot.  For encoding/json this is its round trip on
    the header object and on a [Claims] value whose [Role] is text. *)
Class JwtLibLaws (L : JwtLib) : Prop := mkJwtLibLaws
  { decode_encode : forall b, DecodeSegment (EncodeSegment b) = Some b;
    encode_no_dot : forall b, strings.Contains (EncodeSegment b) "." = false;
    unmarshal_marshal_header : forall h, unmarshalHeader (marshalHeader h) = Some h;
    unmarshal_marshal_claims : forall c, unmarshalClaims (marshalClaims c) = Some c }.

(** [hmac.Equal]: equality of two byte strings. *)
Fixpoint hmac_Equal (a b : list byte) : bool :=
  match a, b with
  | [], [] => true
  | x :: a', y :: b' => Byte.eqb x y && hmac_Equal a' b'
  | _, _ => false
  end.

Module Token.
Record t : Type := mk
  { Raw : string;
    Method : option jwt.SigningMethod;
    Header : jwt.Header;
    Claims : Claims.t;
    Signature : list byte;
    Valid : bool }.
End Token.

Section Codec.

Context {L : JwtLib}.

(** [method.Sign(signingString, key)] with a [[]byte] key: only the HMAC
    family accepts such a key. *)
Definition Sign (m : jwt.SigningMethod) (signingString : string) (key : list byte)
  : list byte * option error :=
  match m with
  | jwt.SigningMethodHMAC h => (hmac h key signingString, None)
  | _ => ([], Some ErrInvalidKeyType)
  end.

(** [method.Verify(signingString, sig, key)] with a [[]byte] key. *)
Definition Verify (m : jwt.SigningMethod) (signingString : string)
  (sig key : list byte) : option error :=
  match m with
  | jwt.SigningMethodHMAC h =>
      if hmac_Equal sig (hmac h key signingString) then None
      else Some ErrTokenSignatureInvalid
  | _ => Some ErrInvalidKeyType
  end.

(** [jwt.NewWithClaims(method, claims)]: the header names the method. *)
Definition NewWithClaims (m : jwt.SigningMethod) (claims : Claims.t) : Token.t :=
  Token.mk "" (Some m) (jwt.mkHeader "JWT" (jwt.Alg m)) claims [] false.

Definition SigningString (t : Token.t) : string :=
  EncodeSegment (marshalHeader (Token.Header t)) ++ "." ++
  EncodeSegment (marshalClaims (Token.Claims t)).

(** [token.SignedString(key)] *)
Definition SignedString (t : Token.t) (key : list byte) : string * option error :=
  let sstr := SigningString t in
  match Token.Method t with
  | None => ("", Some ErrTokenUnverifiable)
  | Some m =>
      match Sign m sstr key with
      | (_, Some e) => ("", Some e)
      | (sig, None) => (sstr ++ "." ++ EncodeSegment sig, None)
      end
  end.

(** [Validator.Validate(claims)] at time [now], without leeway and without
    parser options: [exp] must lie strictly after [now], [nbf] must not lie
    after [now]; [iat] is not inspected. *)
Definition Validate (claims : Claims.t) (now : Time) : list claim_error :=
  let rc := Claims.Registered claims in
  (match jwt.ExpiresAt rc with
   | Some exp => if time.Before now (jwt.NumericDate_Time exp) then [] else [ErrTokenExpired]
   | None => []
   end) ++
  (match jwt.NotBefore rc with
   | Some nbf => if time.Before now (jwt.NumericDate_Time nbf) then [ErrTokenNotValidYet] else []
   | None => []
   end).

(** [Parser.ParseUnverified]: three dot-separated segments, a header, the
    claims, and a registered signing method. *)
Definition ParseUnverified (tokenString : string)
  : Token.t * list string * option error :=
  let parts := strings.Split tokenString "." in
  let token := Token.mk tokenString None (jwt.mkHeader "" "") Claims.zero [] false in
  match parts with
  | [p0; p1; p2] =>
      match DecodeSegment p0 with
      | None => (token, parts, Some ErrTokenMalformed)
      | Some headerBytes =>
      match unmarshalHeader headerBytes with
      | None => (token, parts, Some ErrTokenMalformed)
      | Some header =>
      match DecodeSegment p1 with
      | None => (token, parts, Some ErrTokenMalformed)
      | Some claimBytes =>
      match unmarshalClaims claimBytes with
      | None => (token, parts, Some ErrTokenMalformed)
      | Some claims =>
      match jwt.GetSigningMethod (jwt.alg header) with
      | None =>
          (Token.mk tokenString None header claims [] false, parts,
           Some ErrTokenUnverifiable)
      | Some m =>
          (Token.mk tokenString (Some m) header claims [] false, parts, None)
      end end end end end
  | _ => (token, parts, Some ErrTokenMalformed)
  end.

(** [Parser.ParseWithClaims(tokenString, claims, keyFunc)] with the default
    parser: the unverified parse, the signature check under the key the
    callback returns, then the validation of the claims at the current time. *)
Definition ParseWithClaims (tokenString : string)
  (keyFunc : Token.t -> M (list byte * option error))
  : M (Token.t * option error) :=
  match ParseUnverified tokenString with
  | (token, _, Some e) => ret (token, Some e)
  | (token, parts, None) =>
      match DecodeSegment (nth 2 parts ""), Token.Method token with
      | None, _ => ret (token, Some ErrTokenMalformed)
      | _, None => ret (token, Some ErrTokenUnverifiable)
      | Some sig, Some m =>
          let token := Token.mk (Token.Raw token) (Some m) (Token.Header token)
                         (Token.Claims token) sig false in
          let text := nth 0 parts "" ++ "." ++ nth 1 parts "" in
          let* (key, kerr) := keyFunc token in
          match kerr with
          | Some _ => ret (token, Some ErrTokenUnverifiable)
          | None =>
              match Verify m text sig key with
              | Some _ => ret (token, Some ErrTokenSignatureInvalid)
              | None =>
                  let* now := time_Now in
                  match Validate (Token.Claims token) now with
                  | [] =>
                      ret (Token.mk (Token.Raw token) (Some m) (Token.Header token)
                             (Token.Claims token) sig true, None)
                  | causes => ret (token, Some (ErrTokenInvalidClaims causes))
                  end
              end
          end
      end
  end.

(** ** Package utils (src/unnamed/part_003) *)

Definition bytes_of_string (s : string) : list byte := list_byte_of_string s.

Definition GenerateAccessToken (userID : N) (role : string)
  : M (string * option error) :=
  let* now := time_Now in
  let expiratonTime := time.Add now (15 * time.Minute) in
  let claims :=
    Claims.mk userID role
      (jwt.mkRegisteredClaims (Some (jwt.NewNumericDate expiratonTime)) None None) in
  let token := NewWithClaims jwt.SigningMethodHS256 claims in
  let* secret := os.Getenv "SECRET_KEY" in
  let secretKey := bytes_of_string secret in
  ret (SignedString token secretKey).

Definition ValidateJWT (signedToken : string) : M (option Claims.t * option error) :=
  let* (token, err) :=
    ParseWithClaims signedToken
      (fun _ => let* secret := os.Getenv "SECRET_KEY" in
                ret (bytes_of_string secret, None)) in
  match err with
  | Some e => ret (None, Some e)
  | None =>
      if negb (Token.Valid token) then ret (None, Some (ErrTokenInvalidClaims []))
      else ret (Some (Token.Claims token), None)
  end.

(** ** Package services (src/unnamed/part_002) *)

Definition GenerateAuthToken (user : User.t) : M (string * string * option error) :=
  let* (accessToken, err) := GenerateAccessToken (User.ID user) (User.Role user) in
  match err with
  | Some e => ret ("", "", Some e)
  | None =>
      let* refreshToken := uuid_New_String in
      let* now := time_Now in
      let expiry := time.Add now (30 * 24 * time.Hour) in
      let refreshTokenModel := RefreshToken.mk 0 (User.ID user) refreshToken expiry in
      let* err := gorm.Create_RefreshToken refreshTokenModel in
      match err with
      | Some e => ret ("", "", Some e)
      | None => ret (accessToken, refreshToken, None)
      end
  end.

Definition RefreshAndRevokeToken (oldRefreshToken : string)
  : M (string * string * option error) :=
  let* now := time_Now in
  let* (oldToken, err) := gorm.First_RefreshToken oldRefreshToken now in
  match err with
  | Some e => ret ("", "", Some e)
  | None =>
      let* (user, err) := gorm.First_User (RefreshToken.UserID oldToken) in
      match err with
      | Some e => ret ("", "", Some e)
      | None =>
          let* _ := gorm.Delete_RefreshToken oldToken in
          let* (accessToken, newRefreshToken, err) := GenerateAuthToken user in
          match err with
          | Some e => ret ("", "", Some e)
          | None => ret (accessToken, newRefreshToken, None)
          end
      end
  end.

(** ** Package handlers (src/app/api/handlers/auth_handler.go) *)

Definition RefreshTokenHandler (c : Ctx) : M Outcome :=
  let refreshToken := FormValue c "refresh_token" in
  if String.eqb refreshToken "" then
    ret (Respond StatusBadRequest [("error", JString "Missing refresh token")])
  else
    let* (accessToken, newRefreshToken, err) := RefreshAndRevokeToken refreshToken in
    match err with
    | Some _ =>
        ret (Respond StatusUnauthorized
               [("error", JString "Invalid or expired refresh token")])
    | None =>
        ret (Respond StatusOK
               [("access_token", JString accessToken);
                ("refresh_token", JString newRefreshToken);
                ("token_type", JString "Bearer");
                ("expires_in", JNumber (15 * 60))])
    end.

(** ** Package middlewares (src/docs/clean_architecture_claude.md, from line 913) *)

Definition AuthMiddleware (c : Ctx) : M Outcome :=
  let authHeader := Get c "Authorization" in
  let apiKeyHeader := Get c "api-key" in
  if negb (String.eqb authHeader "") then
    let parts := strings.SplitN authHeader " " 2 in
    if negb (Nat.eqb (List.length parts) 2)
       || negb (strings.EqualFold (nth 0 parts "") "Bearer")
    then
      ret (Respond StatusUnauthorized
             [("error", JString "Invalid or malformed Authorization header")])
    else
      let tokenString := nth 1 parts "" in
      let* (claims, err) := ValidateJWT tokenString in
      match err with
      | Some _ =>
          ret (Respond StatusUnauthorized [("error", JString "Invalid or expired JWT")])
      | None =>
          match claims with
          | None => ret Panic
          | Some claims =>
              ret (Next [("userID", LUint (Claims.UserID claims));
                         ("role", LString (Claims.Role claims));
                         ("authType", LString "JWT")])
          end
      end
  else if negb (String.eqb apiKeyHeader "") then
    let* (apiKey, err) := gorm.First_ApiKey apiKeyHeader in
    match err with
    | Some ErrRecordNotFound =>
        ret (Respond StatusUnauthorized
               [("error", JString "Invalid or inactive API key")])
    | Some _ =>
        ret (Respond StatusInternalServerError
               [("error", JString "Internal server error")])
    | None =>
        ret (Next [("clientID", LString (ApiKey.Client apiKey));
                   ("scope", LString (ApiKey.Scope apiKey));
                   ("userID", LUint (ApiKey.UserID apiKey));
                   ("authType", LString "APIKey")])
    end
  else
    ret (Respond StatusUnauthorized
           [("error", JString "Missing authentication (JWT or API Key)")]).

(** ** Requests served at the same time

    Every request runs on its own goroutine and the store executes one
    statement at a time, so two calls of [RefreshAndRevokeToken] interleave at
    the statements they send.  [RefreshPc] is the position of one call between
    its statements: before line 36, 41, 45, 47, and after its return. *)

Inductive RefreshPc : Type :=
| AtLookup (oldRefreshToken : string)
| AtUser (oldToken : RefreshToken.t)
| AtDelete (oldToken : RefreshToken.t) (user : User.t)
| AtIssue (user : User.t)
| Returned (result : string * string * option error).

Definition refresh_step (pc : RefreshPc) : M RefreshPc :=
  match pc with
  | AtLookup oldRefreshToken =>
      let* now := time_Now in
      let* (oldToken, err) := gorm.First_RefreshToken oldRefreshToken now in
      match err with
      | Some e => ret (Returned ("", "", Some e))
      | None => ret (AtUser oldToken)
      end
  | AtUser oldToken =>
      let* (user, err) := gorm.First_User (RefreshToken.UserID oldToken) in
      match err with
      | Some e => ret (Returned ("", "", Some e))
      | None => ret (AtDelete oldToken user)
      end
  | AtDelete oldToken user =>
      let* _ := gorm.Delete_RefreshToken oldToken in
      ret (AtIssue user)
  | AtIssue user =>
      let* (accessToken, newRefreshToken, err) := GenerateAuthToken user in
      match err with
      | Some e => ret (Returned ("", "", Some e))
      | None => ret (Returned (accessToken, newRefreshToken, None))
      end
  | Returned result => ret (Returned result)
  end.

Fixpoint refresh_steps (n : nat) (pc : RefreshPc) : M RefreshPc :=
  match n with
  | O => ret pc
  | S n' => let* pc' := refresh_step pc in refresh_steps n' pc'
  end.

Inductive Caller : Type := CallerA | CallerB.

(** Two calls under a schedule that names which of them sends its next
    statement. *)
Fixpoint interleave (sched : list Caller) (a b : RefreshPc)
  : M (RefreshPc * RefreshPc) :=
  match sched with
  | [] => ret (a, b)
  | CallerA :: sched' => let* a' := refresh_step a in interleave sched' a' b
  | CallerB :: sched' => let* b' := refresh_step b in interleave sched' a b'
  end.

End Codec.

(** ** Vocabulary of the statements *)

(** No store statement fails at the driver level. *)
Definition healthy (w : World) : Prop := forall n, outage w n = false.

(** The constraints the schema puts on the tables: unique tokens, unique
    primary keys drawn from the counter, unique user ids and API keys. *)
Definition wf_db (d : DB) : Prop :=
  NoDup (map RefreshToken.Token (refresh_tokens d)) /\
  NoDup (map RefreshToken.ID (refresh_tokens d)) /\
  (forall r, In r (refresh_tokens d) ->
     (0 < RefreshToken.ID r <= refresh_tokens_seq d)%N) /\
  NoDup (map User.ID (users d)) /\
  NoDup (map ApiKey.Key (api_keys d)).


(** The compact form of a token: header, payload and signature segments
    joined by dots. *)
Definition compact (h p s : string) : string := h ++ "." ++ p ++ "." ++ s.



(** ** An executable instance of the library interface

    Segments are written in hexadecimal, numbers in binary digits ended by a
    semicolon, and the keyed hash is the key followed by the message.  It has
    the laws of [JwtLibLaws] and lets the flows run on concrete inputs; it
    makes no cryptographic claim. *)

Module PlainLib.

Definition hexdigit (n : N) : ascii :=
  match n with
  | 0 => "0" | 1 => "1" | 2 => "2" | 3 => "3" | 4 => "4" | 5 => "5"
  | 6 => "6" | 7 => "7" | 8 => "8" | 9 => "9" | 10 => "a" | 11 => "b"
  | 12 => "c" | 13 => "d" | 14 => "e" | _ => "f"
  end%N%char.

Definition hexvalue (c : ascii) : option N :=
  let n := N_of_ascii c in
  if ((48 <=? n) && (n <=? 57))%N then Some (n - 48)%N
  else if ((97 <=? n) && (n <=? 102))%N then Some (n - 87)%N
  else None.

Fixpoint encode (b : list byte) : string :=
  match b with
  | [] => EmptyString
  | x :: b' =>
      let n := Byte.to_N x in
      String (hexdigit (n / 16)) (String (hexdigit (n mod 16)) (encode b'))
  end.

Fixpoint decode (s : string) : option (list byte) :=
  match s with
  | EmptyString => Some []
  | String c1 (String c2 s') =>
      match hexvalue c1, hexvalue c2, decode s' with
      | Some h, Some l, Some b =>
          match Byte.of_N (16 * h + l) with
          | Some x => Some (x :: b)
          | None => None
          end
      | _, _, _ => None
      end
  | String _ EmptyString => None
  end.

Definition b0 : byte := byte_of_ascii "0".
Definition b1 : byte := byte_of_ascii "1".
Definition bsemi : byte := byte_of_ascii ";".

Fixpoint put_pos (p : positive) : list byte :=
  match p with
  | xH => [b1]
  | xO p' => b0 :: put_pos p'
  | xI p' => b1 :: put_pos p'
  end.

Definition put_N (n : N) : list byte :=
  match n with
  | N0 => [bsemi]
  | Npos p => (put_pos p ++ [bsemi])%list
  end.

(** Reads binary digits up to the semicolon: the number and what follows. *)
Fixpoint get_N (l : list byte) : option (N * list byte) :=
  match l with
  | [] => None
  | x :: l' =>
      if Byte.eqb x bsemi then Some (0%N, l')
      else if Byte.eqb x b1 then
        match get_N l' with
        | Some (N0, rest) => Some (1%N, rest)
        | Some (Npos p, rest) => Some (Npos (xI p), rest)
        | None => None
        end
      else if Byte.eqb x b0 then
        match get_N l' with
        | Some (Npos p, rest) => Some (Npos (xO p), rest)
        | _ => None
        end
      else None
  end.

Definition put_Z (z : Z) : list byte :=
  match z with
  | Z0 => put_N 0
  | Zpos p => b0 :: put_N (Npos p)
  | Zneg p => b1 :: put_N (Npos p)
  end.

Definition get_Z (l : list byte) : option (Z * list byte) :=
  match l with
  | [] => None
  | x :: l' =>
      if Byte.eqb x bsemi then Some (0, l')
      else
        match get_N l' with
        | Some (Npos p, rest) =>
            if Byte.eqb x b0 then Some (Zpos p, rest)
            else if Byte.eqb x b1 then Some (Zneg p, rest)
            else None
        | _ => None
        end
  end.

Definition put_date (d : option Z) : list byte :=
  match d with
  | None => [b0]
  | Some z => b1 :: put_Z z
  end.

Definition get_date (l : list byte) : option (option Z * list byte) :=
  match l with
  | [] => None
  | x :: l' =>
      if Byte.eqb x b0 then Some (None, l')
      else if Byte.eqb x b1 then
        match get_Z l' with
        | Some (z, rest) => Some (Some z, rest)
        | None => None
        end
      else None
  end.

Definition put_claims (c : Claims.t) : list byte :=
  (put_N (Claims.UserID c) ++
   put_date (jwt.ExpiresAt (Claims.Registered c)) ++
   put_date (jwt.NotBefore (Claims.Registered c)) ++
   put_date (jwt.IssuedAt (Claims.Registered c)) ++
   list_byte_of_string (Claims.Role c))%list.

Definition get_claims (l : list byte) : option Claims.t :=
  match get_N l with
  | None => None
  | Some (uid, l1) =>
  match get_date l1 with
  | None => None
  | Some (exp, l2) =>
  match get_date l2 with
  | None => None
  | Some (nbf, l3) =>
  match get_date l3 with
  | None => None
  | Some (iat, l4) =>
      Some (Claims.mk uid (string_of_list_byte l4) (jwt.mkRegisteredClaims exp nbf iat))
  end end end end.

Definition put_header (h : jwt.Header) : list byte :=
  (put_N (N.of_nat (String.length (jwt.typ h))) ++
   list_byte_of_string (jwt.typ h) ++ list_byte_of_string (jwt.alg h))%list.

Definition get_header (l : list byte) : option jwt.Header :=
  match get_N l with
  | None => None
  | Some (n, rest) =>
      if Nat.leb (N.to_nat n) (List.length rest) then
        Some (jwt.mkHeader (string_of_list_byte (firstn (N.to_nat n) rest))
                (string_of_list_byte (skipn (N.to_nat n) rest)))
      else None
  end.

Definition tag (h : jwt.Hash) : byte :=
  match h with jwt.SHA256 => b0 | jwt.SHA384 => b1 | jwt.SHA512 => bsemi end.

Definition keyed (h : jwt.Hash) (key : list byte) (msg : string) : list byte :=
  tag h :: (key ++ list_byte_of_string msg)%list.

Definition lib : JwtLib :=
  mkJwtLib encode decode keyed put_header get_header put_claims get_claims.

End PlainLib.

(** The answers of the middleware and of the refresh endpoint, by name. *)
Definition MalformedHeader : Outcome :=
  Respond StatusUnauthorized
    [("error", JString "Invalid or malformed Authorization header")].

Definition InvalidToken : Outcome :=
  Respond StatusUnauthorized [("error", JString "Invalid or expired JWT")].

Definition InvalidKey : Outcome :=
  Respond StatusUnauthorized [("error", JString "Invalid or inactive API key")].

Definition InvalidRefreshToken : Outcome :=
  Respond StatusUnauthorized [("error", JString "Invalid or expired refresh token")].

Definition AuthenticatedJWT (claims : Claims.t) : Outcome :=
  Next [("userID", LUint (Claims.UserID claims));
        ("role", LString (Claims.Role claims));
        ("authType", LString "JWT")].

Definition AuthenticatedAPIKey (k : ApiKey.t) : Outcome :=
  Next [("clientID", LString (ApiKey.Client k));
        ("scope", LString (ApiKey.Scope k));
        ("userID", LUint (ApiKey.UserID k));
        ("authType", LString "APIKey")].

(** What the middleware answers once [ValidateJWT] has returned. *)
Definition after_ValidateJWT (r : option Claims.t * option error) : Outcome :=
  match r with
  | (_, Some _) => InvalidToken
  | (Some claims, None) => AuthenticatedJWT claims
  | (None, None) => Panic
  end.

(** The specification's reading of a well-formed Authorization header:
    exactly two whitespace-separated tokens, the first being "Bearer" up to
    case; the second is the token.  [Fields] splits around runs of white
    space, as [strings.Fields] does on ASCII text. *)
Definition isSpace (c : ascii) : bool :=
  let n := nat_of_ascii c in
  (Nat.eqb n 32 || (Nat.leb 9 n && Nat.leb n 13))%bool.

Fixpoint Fields (s : string) : list string :=
  match s with
  | EmptyString => []
  | String c s' =>
      if isSpace c then Fields s'
      else
        match s' with
        | EmptyString => [String c EmptyString]
        | String c' _ =>
            if isSpace c' then String c EmptyString :: Fields s'
            else match Fields s' with
                 | p :: ps => String c p :: ps
                 | [] => [String c EmptyString]
                 end
        end
  end.

Definition spec_bearer_token (header : string) : option string :=
  match Fields header with
  | [scheme; token] => if strings.EqualFold scheme "Bearer" then Some token else None
  | _ => None
  end.

(** The world has no row with the token value [v], draws no random value
    equal to [v], and its store executes every statement. *)
Definition quiet (v : string) (w : World) : Prop :=
  (forall n, outage w n = false) /\
  (forall n, uuids w n <> v) /\
  (forall r, In r (refresh_tokens (store w)) -> RefreshToken.Token r <> v).

(** Whether a schedule lets the second caller send a statement. *)
Definition runs_B (sched : list Caller) : bool :=
  existsb (fun who => match who with CallerB => true | CallerA => false end) sched.

(** ** A concrete world

    One user, one unexpired refresh token of hers, an active and an inactive
    API key; the clock starts at the epoch and advances by a nanosecond per
    reading; the random source yields three distinct values. *)

Module Sample.

Definition ann : User.t := User.mk 42 "ann" "ann@example.org" "$2a$hash" "admin".

Definition db : DB :=
  mkDB [ann]
       [RefreshToken.mk 1 42 "r-1" 5000]
       1
       [ApiKey.mk "k-1" 7 "ci" "deploy" true; ApiKey.mk "k-2" 8 "old" "read" false].

Definition getenv (k : string) : string :=
  if String.eqb k "SECRET_KEY" then "s3" else "".

Definition fresh (n : nat) : string :=
  match n with O => "u-0" | S O => "u-1" | _ => "u-2" end.

Definition world : World :=
  mkWorld db getenv (fun n => Z.of_nat n) fresh (fun _ => false).

(** The same world at a later time [t]. *)
Definition world_at (t : Time) : World :=
  mkWorld db getenv (fun n => t + Z.of_nat n) fresh (fun _ => false).

(** The same world, in which the store statement number [k] fails. *)
Definition world_with_outage (k : nat) : World :=
  mkWorld db getenv (fun n => Z.of_nat n) fresh (fun n => Nat.eqb n k).

(** A request carrying the given Authorization and api-key headers. *)
Definition request (authorization apiKey : string) : Ctx :=
  mkCtx [("Authorization", authorization); ("api-key", apiKey)] [].

(** A request to the refresh endpoint. *)
Definition refresh_request (refreshToken : string) : Ctx :=
  mkCtx [] [("refresh_token", refreshToken)].

(** A world in which the owner of the refresh token has been removed. *)
Definition orphan_world : World :=
  mkWorld (mkDB [] (refresh_tokens db) (refresh_tokens_seq db) (api_keys db))
          getenv (fun n => Z.of_nat n) fresh (fun _ => false).

End Sample.

(** ** Package handlers: login (src/app/api/handlers/auth_handler.go) and
    profile (src/unnamed/part_000), and the profile route
    (src/routes/user_route.go) *)

Module LoginRequest.
Record t : Type := mk { Username : string; Password : string }.
End LoginRequest.

(** [DB.Where("username = ?", username).First(&user)] *)
Definition First_User_by_username (username : string) : M (User.t * option error) :=
  statement (User.zero, Some ErrStoreUnavailable)
    (fun d =>
       match find (fun u => String.eqb (User.Username u) username) (users d) with
       | Some u => ((u, None), d)
       | None => ((User.zero, Some ErrRecordNotFound), d)
       end).

Definition InvalidCredentials : Outcome :=
  Respond StatusUnauthorized [("error", JString "Invalid username or password")].

Section Login.

Context {L : JwtLib}.

(** Two collaborators of the handler that are not in the source at hand:
    fiber's [c.BodyParser(req)] on a [LoginRequest] ([None] is its error),
    and [utils.CheckPasswordHash(password, hash)]. *)
Variable BodyParser : Ctx -> option LoginRequest.t.
Variable CheckPasswordHash : string -> string -> bool.

Definition LoginHandler (c : Ctx) : M Outcome :=
  match BodyParser c with
  | None => ret (Respond StatusBadRequest [("error", JString "Invalid request payload")])
  | Some req =>
      let* (user, err) := First_User_by_username (LoginRequest.Username req) in
      match err with
      | Some ErrRecordNotFound => ret InvalidCredentials
      | Some _ =>
          ret (Respond StatusInternalServerError
                 [("error", JString "Internal server error")])
      | None =>
          if negb (CheckPasswordHash (LoginRequest.Password req) (User.PasswordHash user))
          then ret InvalidCredentials
          else
            let* (accessToken, refreshToken, err) := GenerateAuthToken user in
            match err with
            | Some _ =>
                ret (Respond StatusInternalServerError
                       [("error", JString "Failed to generate tokens")])
            | None =>
                ret (Respond StatusOK
                       [("access_token", JString accessToken);
                        ("refresh_token", JString refreshToken);
                        ("token_type", JString "Bearer");
                        ("expires_in", JNumber (15 * 60))])
            end
      end
  end.

End Login.

(** [c.Locals(key)]: the value stored last under [key], if any. *)
Definition Locals (locals : list (string * Local)) (key : string) : option Local :=
  match find (fun kv => String.eqb (fst kv) key) (rev locals) with
  | Some kv => Some (snd kv)
  | None => None
  end.

(** What [ProfileHandler] answers: a status and a JSON object, in which a
    value may be JSON null ([None]); or a panic, when a type assertion on a
    stored value fails. *)
Inductive Reply : Type :=
| ReplyJSON (status : Z) (body : list (string * option json))
| ReplyPanic.

Definition json_of_Local (v : option Local) : option json :=
  match v with
  | Some (LUint n) => Some (JNumber (Z.of_N n))
  | Some (LString s) => Some (JString s)
  | None => None
  end.

Definition ProfileHandler (locals : list (string * Local)) : Reply :=
  match Locals locals "authType" with
  | Some (LString authType) =>
      if String.eqb authType "JWT" then
        match Locals locals "userID", Locals locals "role" with
        | Some (LUint userID), Some (LString role) =>
            ReplyJSON StatusOK
              [("user_id", Some (JNumber (Z.of_N userID)));
               ("role", Some (JString role));
               ("access_by", Some (JString authType))]
        | _, _ => ReplyPanic
        end
      else if String.eqb authType "APIKey" then
        match Locals locals "clientID", Locals locals "scope" with
        | Some (LString clientID), Some (LString role) =>
            ReplyJSON StatusOK
              [("client_id", Some (JString clientID));
               ("role", Some (JString role));
               ("access_by", Some (JString authType));
               ("user_id", json_of_Local (Locals locals "userID"))]
        | _, _ => ReplyPanic
        end
      else
        ReplyJSON StatusUnauthorized [("error", Some (JString "Unauthorized access"))]
  | _ => ReplyPanic
  end.

Definition Reply_of_Outcome (o : Outcome) : Reply :=
  match o with
  | Respond status body => ReplyJSON status (map (fun kv => (fst kv, Some (snd kv))) body)
  | Next locals => ProfileHandler locals
  | Panic => ReplyPanic
  end.

(** GET /api/user/profile: [AuthMiddleware], then, when it calls [c.Next()],
    [ProfileHandler] on the values it stored. *)
Definition profile_route {L : JwtLib} (c : Ctx) : M Reply :=
  let* o := AuthMiddleware c in
  ret (Reply_of_Outcome o).

(** A body parser that reads the two fields from the form values, and a
    password check that compares with the stored text: enough to run the
    login handler on concrete inputs. *)
Module SampleLogin.

Definition parse (c : Ctx) : option LoginRequest.t :=
  if String.eqb (FormValue c "username") "" then None
  else Some (LoginRequest.mk (FormValue c "username") (FormValue c "password")).

Definition check (password hash : string) : bool := String.eqb password hash.

Definition login_request (username password : string) : Ctx :=
  mkCtx [] [("username", username); ("password", password)].

End SampleLogin.

(** * Properties *)

(** ** Strings *)

Lemma Split_not_nil (s : string) (c : ascii) : strings.Split s c <> [].
Proof.
  destruct s as [|a s]; simpl; [discriminate|].
  destruct (Ascii.eqb a c); [discriminate|].
  destruct (strings.Split s c); discriminate.
Qed.

Lemma Split_app (a b : string) (c : ascii) :
  strings.Split (a ++ String c b) c = (strings.Split a c ++ strings.Split b c)%list.
Proof.
  induction a as [|x a IH]; simpl.
  - now rewrite Ascii.eqb_refl.
  - destruct (Ascii.eqb x c); [now rewrite IH|].
    rewrite IH. destruct (strings.Split a c) eqn:E; [|reflexivity].
    now apply Split_not_nil in E.
Qed.

Lemma Split_no_sep (s : string) (c : ascii) :
  strings.Contains s c = false -> strings.Split s c = [s].
Proof.
  induction s as [|x s IH]; simpl; [reflexivity|].
  destruct (Ascii.eqb x c); simpl; [discriminate|].
  intros H. now rewrite (IH H).
Qed.


Lemma Cut_some (s a b : string) (c : ascii) :
  strings.Cut s c = Some (a, b) <->
  s = a ++ String c b /\ strings.Contains a c = false.
Proof.
  revert a. induction s as [|x s IH]; simpl; intros a.
  - split; [discriminate|]. intros [H _]. destruct a; discriminate.
  - destruct (Ascii.eqb x c) eqn:E.
    + apply Ascii.eqb_eq in E. subst x. split.
      * intros [= <- <-]. now split.
      * intros [H Hc]. destruct a as [|y a]; simpl in *.
        -- now injection H as ->.
        -- injection H as <- _. now rewrite Ascii.eqb_refl in Hc.
    + destruct (strings.Cut s c) as [[a' b']|].
      * split.
        -- intros [= <- <-]. destruct (proj1 (IH a') eq_refl) as [-> Hc].
           simpl. now rewrite E.
        -- intros [H Hc]. destruct a as [|y a]; simpl in *.
           ++ injection H as -> _. now rewrite Ascii.eqb_refl in E.
           ++ injection H as <- H. rewrite E in Hc. simpl in Hc.
              now injection (proj2 (IH a) (conj H Hc)) as -> ->.
      * split; [discriminate|]. intros [H Hc].
        destruct a as [|y a]; simpl in *.
        -- injection H as -> _. now rewrite Ascii.eqb_refl in E.
        -- injection H as <- H. rewrite E in Hc. simpl in Hc.
           discriminate (proj2 (IH a) (conj H Hc)).
Qed.

Lemma Cut_none (s : string) (c : ascii) :
  strings.Cut s c = None <-> strings.Contains s c = false.
Proof.
  induction s as [|x s IH]; simpl; [tauto|].
  destruct (Ascii.eqb x c); simpl.
  - split; discriminate.
  - destruct (strings.Cut s c) as [[a b]|].
    + split; [discriminate|]. intros H. apply IH in H. discriminate.
    + split; [intros _; now apply IH|reflexivity].
Qed.



(** ** The executable instance has the laws of the interface *)

Module PlainLibFacts.
Import PlainLib.

Lemma decode_cons (x : byte) (s : string) :
  decode (String (hexdigit (Byte.to_N x / 16))
            (String (hexdigit (Byte.to_N x mod 16)) s)) =
  match decode s with Some b => Some (x :: b) | None => None end.
Proof. destruct x; reflexivity. Qed.

Lemma hex_decode_encode (b : list byte) : decode (encode b) = Some b.
Proof.
  induction b as [|x b IH]; [reflexivity|].
  cbn [encode]. now rewrite decode_cons, IH.
Qed.

Lemma no_dot_cons (x : byte) (s : string) :
  strings.Contains (String (hexdigit (Byte.to_N x / 16))
                      (String (hexdigit (Byte.to_N x mod 16)) s)) "." =
  strings.Contains s ".".
Proof. destruct x; reflexivity. Qed.

Lemma hex_no_dot (b : list byte) : strings.Contains (encode b) "." = false.
Proof.
  induction b as [|x b IH]; [reflexivity|].
  cbn [encode]. now rewrite no_dot_cons.
Qed.

Lemma get_put_pos (p : positive) (rest : list byte) :
  get_N (put_pos p ++ bsemi :: rest) = Some (Npos p, rest).
Proof.
  induction p as [p IH|p IH|]; cbn [put_pos app get_N].
  - change (Byte.eqb b1 bsemi) with false. change (Byte.eqb b1 b1) with true.
    cbv iota. now rewrite IH.
  - change (Byte.eqb b0 bsemi) with false. change (Byte.eqb b0 b1) with false.
    change (Byte.eqb b0 b0) with true. cbv iota. now rewrite IH.
  - reflexivity.
Qed.

Lemma get_put_N (n : N) (rest : list byte) :
  get_N (put_N n ++ rest) = Some (n, rest).
Proof.
  destruct n as [|p]; [reflexivity|].
  unfold put_N. rewrite <- app_assoc. apply get_put_pos.
Qed.

Lemma get_put_Z (z : Z) (rest : list byte) :
  get_Z (put_Z z ++ rest) = Some (z, rest).
Proof.
  destruct z as [|p|p]; [reflexivity| |];
    cbn [put_Z app get_Z]; rewrite get_put_N; reflexivity.
Qed.

Lemma get_put_date (d : option Z) (rest : list byte) :
  get_date (put_date d ++ rest) = Some (d, rest).
Proof.
  destruct d as [z|]; [|reflexivity].
  cbn [put_date app get_date].
  change (Byte.eqb b1 b0) with false. change (Byte.eqb b1 b1) with true.
  cbv iota. now rewrite get_put_Z.
Qed.

Lemma get_put_claims (c : Claims.t) : get_claims (put_claims c) = Some c.
Proof.
  destruct c as [uid role [exp nbf iat]].
  unfold put_claims, get_claims. cbn [Claims.UserID Claims.Role Claims.Registered
    jwt.ExpiresAt jwt.NotBefore jwt.IssuedAt].
  rewrite get_put_N, !get_put_date, string_of_list_byte_of_string.
  reflexivity.
Qed.

Lemma length_list_byte_of_string (s : string) :
  List.length (list_byte_of_string s) = String.length s.
Proof.
  unfold list_byte_of_string. rewrite length_map.
  induction s as [|a s IH]; simpl; congruence.
Qed.

Lemma get_put_header (h : jwt.Header) : get_header (put_header h) = Some h.
Proof.
  destruct h as [t a]. unfold put_header, get_header. cbn [jwt.typ jwt.alg].
  rewrite get_put_N, Nat2N.id, length_app, !length_list_byte_of_string.
  assert (E : Nat.leb (String.length t) (String.length t + String.length a) = true)
    by (apply Nat.leb_le; lia).
  rewrite E. rewrite <- (length_list_byte_of_string t).
  rewrite firstn_app, Nat.sub_diag, firstn_all, firstn_O, app_nil_r.
  rewrite skipn_app, Nat.sub_diag, skipn_all, skipn_O.
  cbn [app]. now rewrite !string_of_list_byte_of_string.
Qed.

Lemma laws : JwtLibLaws lib.
Proof.
  constructor.
  - exact hex_decode_encode.
  - exact hex_no_dot.
  - exact get_put_header.
  - exact get_put_claims.
Qed.

End PlainLibFacts.

(** ** The signed token codec *)

Ltac run_monad :=
  cbv beta iota delta [bind ret os.Getenv time_Now uuid_New_String statement] in *;
  cbn [fst snd store environ clock uuids outage] in *.

Section CodecFacts.

Context {L : JwtLib}.

(** A successful verification, taken apart: what the parser and the
    validator have checked. *)
Lemma ValidateJWT_inv (tok : string) (w : World) (c : Claims.t) :
  fst (ValidateJWT tok w) = (Some c, None) ->
  exists p0 p1 p2 hb hdr cb m sig,
    strings.Split tok "." = [p0; p1; p2] /\
    DecodeSegment p0 = Some hb /\ unmarshalHeader hb = Some hdr /\
    DecodeSegment p1 = Some cb /\ unmarshalClaims cb = Some c /\
    jwt.GetSigningMethod (jwt.alg hdr) = Some m /\
    DecodeSegment p2 = Some sig /\
    Verify m (p0 ++ "." ++ p1) sig (bytes_of_string (environ w "SECRET_KEY")) = None /\
    Validate c (clock w O) = [].
Proof.
  unfold ValidateJWT, ParseWithClaims, ParseUnverified. run_monad.
  destruct (strings.Split tok ".") as [|p0 [|p1 [|p2 [|? ?]]]];
    try discriminate.
  destruct (DecodeSegment p0) as [hb|] eqn:E0; try discriminate.
  destruct (unmarshalHeader hb) as [hdr|] eqn:E1; try discriminate.
  destruct (DecodeSegment p1) as [cb|] eqn:E2; try discriminate.
  destruct (unmarshalClaims cb) as [c'|] eqn:E3; try discriminate.
  destruct (jwt.GetSigningMethod (jwt.alg hdr)) as [m|] eqn:E4; try discriminate.
  cbn [nth Token.Method Token.Claims Token.Raw Token.Header].
  destruct (DecodeSegment p2) as [sig|] eqn:E5; try discriminate.
  destruct (Verify m _ sig _) eqn:E6; try discriminate.
  destruct (Validate c' _) eqn:E7; try discriminate.
  cbn. intros [= <-].
  exists p0, p1, p2, hb, hdr, cb, m, sig. repeat split; assumption.
Qed.

Lemma ValidateJWT_intro (tok : string) (w : World) (c : Claims.t)
  (p0 p1 p2 : string) (hb cb sig : list byte) (hdr : jwt.Header)
  (m : jwt.SigningMethod) :
  strings.Split tok "." = [p0; p1; p2] ->
  DecodeSegment p0 = Some hb -> unmarshalHeader hb = Some hdr ->
  DecodeSegment p1 = Some cb -> unmarshalClaims cb = Some c ->
  jwt.GetSigningMethod (jwt.alg hdr) = Some m ->
  DecodeSegment p2 = Some sig ->
  Verify m (p0 ++ "." ++ p1) sig (bytes_of_string (environ w "SECRET_KEY")) = None ->
  Validate c (clock w O) = [] ->
  fst (ValidateJWT tok w) = (Some c, None).
Proof.
  intros Hs E0 E1 E2 E3 E4 E5 E6 E7.
  unfold ValidateJWT, ParseWithClaims, ParseUnverified. run_monad.
  rewrite Hs, E0, E1, E2, E3, E4.
  cbn [nth Token.Method Token.Claims Token.Raw Token.Header].
  rewrite E5, E6, E7. reflexivity.
Qed.

(** Verification answers with claims and no error, or with an error and no
    claims. *)
Lemma ValidateJWT_cases (tok : string) (w : World) :
  (exists c, fst (ValidateJWT tok w) = (Some c, None)) \/
  (exists e, fst (ValidateJWT tok w) = (None, Some e)).
Proof.
  unfold ValidateJWT, ParseWithClaims, ParseUnverified. run_monad.
  destruct (strings.Split tok ".") as [|p0 [|p1 [|p2 [|? ?]]]];
    try (right; eexists; reflexivity).
  destruct (DecodeSegment p0) as [hb|]; try (right; eexists; reflexivity).
  destruct (unmarshalHeader hb) as [hdr|]; try (right; eexists; reflexivity).
  destruct (DecodeSegment p1) as [cb|]; try (right; eexists; reflexivity).
  destruct (unmarshalClaims cb) as [c'|]; try (right; eexists; reflexivity).
  destruct (jwt.GetSigningMethod (jwt.alg hdr)) as [m|];
    try (right; eexists; reflexivity).
  cbn [nth Token.Method Token.Claims Token.Raw Token.Header].
  destruct (DecodeSegment p2) as [sig|]; try (right; eexists; reflexivity).
  destruct (Verify m _ sig _); try (right; eexists; reflexivity).
  destruct (Validate c' _); [left|right]; eexists; reflexivity.
Qed.

(** Verification reads the world only through the signing secret and the
    next reading of the clock, and changes nothing but the clock. *)
Lemma ValidateJWT_frame (tok : string) (w : World) :
  store (snd (ValidateJWT tok w)) = store w /\
  outage (snd (ValidateJWT tok w)) = outage w /\
  uuids (snd (ValidateJWT tok w)) = uuids w /\
  environ (snd (ValidateJWT tok w)) = environ w.
Proof.
  unfold ValidateJWT, ParseWithClaims, ParseUnverified. run_monad.
  destruct (strings.Split tok ".") as [|p0 [|p1 [|p2 [|? ?]]]]; try (cbn; tauto).
  destruct (DecodeSegment p0) as [hb|]; try (cbn; tauto).
  destruct (unmarshalHeader hb) as [hdr|]; try (cbn; tauto).
  destruct (DecodeSegment p1) as [cb|]; try (cbn; tauto).
  destruct (unmarshalClaims cb) as [c'|]; try (cbn; tauto).
  destruct (jwt.GetSigningMethod (jwt.alg hdr)) as [m|]; try (cbn; tauto).
  cbn [nth Token.Method Token.Claims Token.Raw Token.Header].
  destruct (DecodeSegment p2) as [sig|]; try (cbn; tauto).
  destruct (Verify m _ sig _); try (cbn; tauto).
  destruct (Validate c' _); cbn; tauto.
Qed.

Lemma ValidateJWT_ext (tok : string) (w w' : World) :
  environ w' "SECRET_KEY" = environ w "SECRET_KEY" ->
  clock w' O = clock w O ->
  (forall c, fst (ValidateJWT tok w) = (Some c, None) ->
             fst (ValidateJWT tok w') = (Some c, None)).
Proof.
  intros He Hc c H.
  apply ValidateJWT_inv in H
    as (p0 & p1 & p2 & hb & hdr & cb & m & sig & Hs & E0 & E1 & E2 & E3 & E4 & E5 & E6 & E7).
  eapply ValidateJWT_intro; eauto; congruence.
Qed.

Context {HL : JwtLibLaws L}.

Lemma append_assoc (a b c : string) : (a ++ b) ++ c = a ++ b ++ c.
Proof. induction a as [|x a IH]; simpl; [reflexivity|now rewrite IH]. Qed.


Lemma issued_token (userID : N) (role : string) (w : World) :
  let key := bytes_of_string (environ w "SECRET_KEY") in
  let exp := jwt.NewNumericDate (time.Add (clock w O) (15 * time.Minute)) in
  let claims := Claims.mk userID role (jwt.mkRegisteredClaims (Some exp) None None) in
  let h := EncodeSegment (marshalHeader (jwt.mkHeader "JWT" "HS256")) in
  let p := EncodeSegment (marshalClaims claims) in
  let sig := hmac jwt.SHA256 key (h ++ "." ++ p) in
  GenerateAccessToken userID role w =
    ((compact h p (EncodeSegment sig), None),
     mkWorld (store w) (environ w) (tail (clock w)) (uuids w) (outage w)).
Proof.
  cbv zeta. unfold GenerateAccessToken, SignedString, SigningString, compact.
  run_monad. cbn. now rewrite append_assoc.
Qed.


End CodecFacts.

(** ** Issue and verify *)





(** ** The store *)

Lemma NoDup_map_inj {A B : Type} (f : A -> B) (l : list A) (a b : A) :
  NoDup (map f l) -> In a l -> In b l -> f a = f b -> a = b.
Proof.
  induction l as [|x l IH]; simpl; [tauto|].
  intros Hnd Ha Hb Hf. inversion Hnd as [|? ? Hx Hl]; subst.
  destruct Ha as [->|Ha], Hb as [->|Hb]; auto.
  - exfalso. apply Hx. rewrite Hf. now apply in_map.
  - exfalso. apply Hx. rewrite <- Hf. now apply in_map.
Qed.

Lemma find_token_found (l : list RefreshToken.t) (r : RefreshToken.t) (now : Time) :
  NoDup (map RefreshToken.Token l) -> In r l -> now < RefreshToken.ExpiryDate r ->
  find (fun x => String.eqb (RefreshToken.Token x) (RefreshToken.Token r)
                 && (now <? RefreshToken.ExpiryDate x)) l = Some r.
Proof.
  intros Hnd Hin Hexp.
  destruct (find _ l) as [r'|] eqn:E.
  - apply find_some in E as [Hin' Hp]. apply andb_true_iff in Hp as [Hp _].
    apply String.eqb_eq in Hp. f_equal.
    now apply (NoDup_map_inj RefreshToken.Token l).
  - apply (find_none _ _ E) in Hin. cbv beta in Hin.
    rewrite String.eqb_refl, (proj2 (Z.ltb_lt _ _) Hexp) in Hin. discriminate.
Qed.

Lemma find_token_absent (l : list RefreshToken.t) (v : string) (now : Time) :
  (forall r, In r l -> RefreshToken.Token r <> v) ->
  find (fun x => String.eqb (RefreshToken.Token x) v
                 && (now <? RefreshToken.ExpiryDate x)) l = None.
Proof.
  intros H. destruct (find _ l) as [r'|] eqn:E; [|reflexivity].
  apply find_some in E as [Hin Hp]. apply andb_true_iff in Hp as [Hp _].
  apply String.eqb_eq in Hp. now apply H in Hin.
Qed.

Lemma find_user_found (l : list User.t) (u : User.t) :
  NoDup (map User.ID l) -> In u l ->
  find (fun x => N.eqb (User.ID x) (User.ID u)) l = Some u.
Proof.
  intros Hnd Hin.
  destruct (find _ l) as [u'|] eqn:E.
  - apply find_some in E as [Hin' Hp]. apply N.eqb_eq in Hp. f_equal.
    now apply (NoDup_map_inj User.ID l).
  - apply (find_none _ _ E) in Hin. cbv beta in Hin.
    rewrite N.eqb_refl in Hin. discriminate.
Qed.

Lemma existsb_token_absent (l : list RefreshToken.t) (v : string) :
  (forall r, In r l -> RefreshToken.Token r <> v) ->
  existsb (fun r => String.eqb (RefreshToken.Token r) v) l = false.
Proof.
  intros H. destruct (existsb _ l) eqn:E; [|reflexivity].
  apply existsb_exists in E as (r & Hin & Hp). apply String.eqb_eq in Hp.
  now apply H in Hin.
Qed.

(** Deleting a row by its primary key removes its token from a table whose
    tokens are unique. *)
Lemma delete_removes_token (l : list RefreshToken.t) (row : RefreshToken.t) :
  NoDup (map RefreshToken.Token l) -> In row l ->
  forall r,
    In r (filter (fun x => negb (N.eqb (RefreshToken.ID x) (RefreshToken.ID row))) l) ->
    RefreshToken.Token r <> RefreshToken.Token row.
Proof.
  intros Hnd Hin r Hr Heq. apply filter_In in Hr as [Hr Hid].
  assert (r = row) as -> by now apply (NoDup_map_inj RefreshToken.Token l).
  now rewrite N.eqb_refl in Hid.
Qed.

Section ServiceFacts.

Context {L : JwtLib}.

Lemma GenerateAuthToken_eq (user : User.t) (w : World) :
  GenerateAuthToken user w =
  let issued := GenerateAccessToken (User.ID user) (User.Role user) w in
  let row := RefreshToken.mk 0 (User.ID user) (uuids w O)
               (time.Add (clock w 1%nat) (30 * 24 * time.Hour)) in
  let w2 := mkWorld (store w) (environ w) (tail (tail (clock w))) (tail (uuids w))
              (outage w) in
  match gorm.Create_RefreshToken row w2 with
  | (Some e, w3) => (("", "", Some e), w3)
  | (None, w3) => ((fst (fst issued), uuids w O, None), w3)
  end.
Proof.
  unfold GenerateAuthToken. unfold bind at 1. rewrite issued_token. cbv zeta.
  run_monad. unfold tail. cbn.
  destruct (gorm.Create_RefreshToken _ _) as [[e|] w3]; reflexivity.
Qed.


(** What [Create] does, by cases on its error. *)
Lemma Create_RefreshToken_spec (row : RefreshToken.t) (w : World) :
  let err := fst (gorm.Create_RefreshToken row w) in
  let w' := snd (gorm.Create_RefreshToken row w) in
  match err with
  | Some _ =>
      store w' = store w /\
      (outage w O = true \/
       exists r, In r (refresh_tokens (store w)) /\
                 RefreshToken.Token r = RefreshToken.Token row)
  | None =>
      outage w O = false /\
      (forall r, In r (refresh_tokens (store w)) ->
                 RefreshToken.Token r <> RefreshToken.Token row) /\
      exists id,
        In (RefreshToken.mk id (RefreshToken.UserID row) (RefreshToken.Token row)
              (RefreshToken.ExpiryDate row))
           (refresh_tokens (store w'))
  end.
Proof.
  unfold gorm.Create_RefreshToken, statement.
  destruct (outage w O) eqn:Eo; cbn; [now split; [|left]|].
  destruct (existsb _ _) eqn:Ex; cbn.
  - split; [reflexivity|right].
    apply existsb_exists in Ex as (r & Hin & Hp). apply String.eqb_eq in Hp. eauto.
  - split; [reflexivity|]. split.
    + intros r Hin Heq.
      assert (existsb (fun r0 => String.eqb (RefreshToken.Token r0) (RefreshToken.Token row))
                (refresh_tokens (store w)) = true); [|congruence].
      apply existsb_exists. exists r. split; [assumption|now apply String.eqb_eq].
    + eexists. apply in_or_app. right. left. reflexivity.
Qed.

End ServiceFacts.

(** ** Login and refresh *)

(** C8.  Whatever [GenerateAuthToken] returns: when the refresh token cannot
    be persisted (the statement fails, or the token value is taken) there is
    an error; with an error both returned tokens are empty and the store is
    as it was; without an error the access token is the one issued for the
    user and a refresh-token row with the returned value and the user's id is
    in the store. *)
Theorem login_all_or_nothing (L : JwtLib) (user : User.t) (w w' : World)
  (accessToken refreshToken : string) (err : option error) :
  GenerateAuthToken user w = ((accessToken, refreshToken, err), w') ->
  ((outage w O = true \/
    exists r, In r (refresh_tokens (store w)) /\ RefreshToken.Token r = uuids w O) ->
   err <> None) /\
  (err <> None -> accessToken = "" /\ refreshToken = "" /\ store w' = store w) /\
  (err = None ->
   fst (GenerateAccessToken (User.ID user) (User.Role user) w) = (accessToken, None) /\
   exists id,
     In (RefreshToken.mk id (User.ID user) refreshToken
           (time.Add (clock w 1%nat) (30 * 24 * time.Hour)))
        (refresh_tokens (store w'))).
Proof.
  rewrite GenerateAuthToken_eq. cbv zeta. rewrite issued_token. cbv zeta. cbn [fst snd].
  match goal with |- context [gorm.Create_RefreshToken ?r ?x] =>
    pose proof (Create_RefreshToken_spec r x) as Hc;
    destruct (gorm.Create_RefreshToken r x) as [[e|] w3] end;
    cbv zeta in Hc; cbn [fst snd store outage RefreshToken.Token RefreshToken.UserID
                           RefreshToken.ExpiryDate] in Hc;
    intros [= <- <- <- <-].
  - destruct Hc as [Hs _]. split; [intros _; discriminate|].
    split; [intros _; auto|intros; discriminate].
  - destruct Hc as (Ho & Hno & id & Hin). split; [|split].
    + intros [Hd|(r & Hr & Ht)] _; [congruence|now apply Hno in Hr].
    + now intros [].
    + intros _. split; [reflexivity|]. now exists id.
Qed.

Lemma login_all_or_nothing_witness :
  @GenerateAuthToken PlainLib.lib Sample.ann (Sample.world_with_outage 0) =
    (("", "", Some ErrStoreUnavailable),
     snd (@GenerateAuthToken PlainLib.lib Sample.ann (Sample.world_with_outage 0))) /\
  outage (Sample.world_with_outage 0) O = true /\
  Some ErrStoreUnavailable <> None /\
  store (snd (@GenerateAuthToken PlainLib.lib Sample.ann (Sample.world_with_outage 0))) =
    store (Sample.world_with_outage 0).
Proof.
  assert (H : @GenerateAuthToken PlainLib.lib Sample.ann (Sample.world_with_outage 0) =
    (("", "", Some ErrStoreUnavailable),
     snd (@GenerateAuthToken PlainLib.lib Sample.ann (Sample.world_with_outage 0))))
    by reflexivity.
  destruct (login_all_or_nothing PlainLib.lib _ _ _ _ _ _ H) as (H1 & H2 & _).
  split; [exact H|]. split; [reflexivity|].
  split; [exact (H1 (or_introl eq_refl))|].
  exact (proj2 (proj2 (H2 (H1 (or_introl eq_refl))))).
Defined.


Lemma healthy_sample : healthy Sample.world.
Proof. intros n. reflexivity. Qed.

Lemma wf_sample : wf_db Sample.db.
Proof.
  unfold wf_db, Sample.db. cbn.
  repeat split.
  - repeat constructor; cbn; intuition discriminate.
  - repeat constructor; cbn; intuition discriminate.
  - destruct H as [<-|[]]. cbn. lia.
  - destruct H as [<-|[]]. cbn. lia.
  - repeat constructor; cbn; intuition discriminate.
  - repeat constructor; cbn; intuition discriminate.
Qed.

Lemma fresh_sample (r : RefreshToken.t) :
  In r (refresh_tokens Sample.db) -> RefreshToken.Token r <> "u-0".
Proof. intros [<-|[]]. discriminate. Qed.


(** The result of [DB.Delete] at line 45 is not inspected: when that statement
    fails in the store the call still succeeds, the row stays, and a second
    call with the same value succeeds as well.  The hypothesis [healthy] above
    cannot be dropped. *)
Remark refresh_delete_error_ignored :
  exists access1 access2,
    fst (@RefreshAndRevokeToken PlainLib.lib "r-1" (Sample.world_with_outage 2)) =
      (access1, "u-0", None) /\
    fst (@RefreshAndRevokeToken PlainLib.lib "r-1"
           (snd (@RefreshAndRevokeToken PlainLib.lib "r-1" (Sample.world_with_outage 2)))) =
      (access2, "u-1", None).
Proof. eexists. eexists. split; vm_compute; reflexivity. Qed.



(** ** The dispatcher *)

Section MiddlewareFacts.

Context {L : JwtLib}.

Lemma SplitN_2 (s : string) :
  strings.SplitN s " " 2 =
  match strings.Cut s " " with
  | Some (a, b) => [a; b]
  | None => [s]
  end.
Proof. cbn. destruct (strings.Cut s " ") as [[a b]|]; reflexivity. Qed.

(** The Authorization branch, as a function of the header's first space. *)
Lemma AuthMiddleware_authorization (c : Ctx) (w : World) :
  Get c "Authorization" <> "" ->
  AuthMiddleware c w =
  match strings.Cut (Get c "Authorization") " " with
  | None => (MalformedHeader, w)
  | Some (scheme, tok) =>
      if strings.EqualFold scheme "Bearer"
      then (after_ValidateJWT (fst (ValidateJWT tok w)), snd (ValidateJWT tok w))
      else (MalformedHeader, w)
  end.
Proof.
  intros Hne. unfold AuthMiddleware.
  destruct (String.eqb (Get c "Authorization") "") eqn:E;
    [now apply String.eqb_eq in E|].
  cbn [negb]. rewrite SplitN_2.
  destruct (strings.Cut (Get c "Authorization") " ") as [[scheme tok]|];
    [|reflexivity].
  cbn [List.length Nat.eqb negb orb nth].
  destruct (strings.EqualFold scheme "Bearer"); [|reflexivity].
  cbn [negb]. unfold bind.
  destruct (ValidateJWT tok w) as [[[cl|] [e|]] w']; reflexivity.
Qed.

Lemma after_ValidateJWT_ext (tok : string) (w w' : World) :
  environ w' "SECRET_KEY" = environ w "SECRET_KEY" ->
  clock w' O = clock w O ->
  after_ValidateJWT (fst (ValidateJWT tok w')) = after_ValidateJWT (fst (ValidateJWT tok w)).
Proof.
  intros He Hc.
  destruct (ValidateJWT_cases tok w) as [[cl H]|[e H]].
  - rewrite H, (ValidateJWT_ext tok w w' He Hc cl H). reflexivity.
  - destruct (ValidateJWT_cases tok w') as [[cl' H']|[e' H']].
    + apply (ValidateJWT_ext tok w' w) in H'; congruence.
    + now rewrite H, H'.
Qed.

Lemma after_ValidateJWT_not_malformed (r : option Claims.t * option error) :
  after_ValidateJWT r <> MalformedHeader.
Proof. destruct r as [[cl|] [e|]]; discriminate. Qed.

End MiddlewareFacts.

(** C4.  With a non-empty Authorization header the answer of the middleware
    is the same for every api-key header and every store: it depends on the
    Authorization header, the signing secret and the clock only, no store
    statement is sent, and a request that is let through carries the user id
    and role of the claims verified from the text after the first space. *)
Theorem authorization_header_takes_precedence (L : JwtLib) (c : Ctx) (w : World) :
  Get c "Authorization" <> "" ->
  (forall c' w',
     Get c' "Authorization" = Get c "Authorization" ->
     environ w' "SECRET_KEY" = environ w "SECRET_KEY" ->
     clock w' O = clock w O ->
     fst (AuthMiddleware c' w') = fst (AuthMiddleware c w)) /\
  store (snd (AuthMiddleware c w)) = store w /\
  outage (snd (AuthMiddleware c w)) = outage w /\
  (forall locals,
     fst (AuthMiddleware c w) = Next locals ->
     exists scheme tok claims,
       Get c "Authorization" = scheme ++ " " ++ tok /\
       fst (ValidateJWT tok w) = (Some claims, None) /\
       Next locals = AuthenticatedJWT claims).
Proof.
  intros Hne. split; [|split; [|split]].
  - intros c' w' Hh He Hc.
    rewrite (AuthMiddleware_authorization c w Hne).
    rewrite (AuthMiddleware_authorization c' w') by now rewrite Hh.
    rewrite Hh.
    destruct (strings.Cut (Get c "Authorization") " ") as [[scheme tok]|];
      [|reflexivity].
    destruct (strings.EqualFold scheme "Bearer"); [|reflexivity].
    cbn [fst]. now apply after_ValidateJWT_ext.
  - rewrite (AuthMiddleware_authorization c w Hne).
    destruct (strings.Cut (Get c "Authorization") " ") as [[scheme tok]|];
      [|reflexivity].
    destruct (strings.EqualFold scheme "Bearer"); [|reflexivity].
    cbn [snd]. apply ValidateJWT_frame.
  - rewrite (AuthMiddleware_authorization c w Hne).
    destruct (strings.Cut (Get c "Authorization") " ") as [[scheme tok]|];
      [|reflexivity].
    destruct (strings.EqualFold scheme "Bearer"); [|reflexivity].
    cbn [snd]. apply ValidateJWT_frame.
  - intros locals. rewrite (AuthMiddleware_authorization c w Hne).
    destruct (strings.Cut (Get c "Authorization") " ") as [[scheme tok]|] eqn:Ec;
      [|discriminate].
    destruct (strings.EqualFold scheme "Bearer"); [|discriminate].
    cbn [fst]. intros H. apply Cut_some in Ec as [Ec _].
    destruct (ValidateJWT_cases tok w) as [[cl Hv]|[e Hv]]; rewrite Hv in H.
    + exists scheme, tok, cl. split; [assumption|]. split; [assumption|].
      symmetry. exact H.
    + discriminate.
Qed.

Lemma authorization_header_takes_precedence_witness :
  let tok := fst (fst (@GenerateAccessToken PlainLib.lib 42 "admin" Sample.world)) in
  let c := Sample.request ("Bearer " ++ tok) "k-1" in
  Get c "Authorization" <> "" /\
  fst (@AuthMiddleware PlainLib.lib c (Sample.world_at 10)) =
    Next [("userID", LUint 42); ("role", LString "admin"); ("authType", LString "JWT")] /\
  fst (@AuthMiddleware PlainLib.lib (Sample.request ("Bearer " ++ tok) "")
         (Sample.world_at 10)) =
    fst (@AuthMiddleware PlainLib.lib c (Sample.world_at 10)) /\
  store (snd (@AuthMiddleware PlainLib.lib c (Sample.world_at 10))) =
    store (Sample.world_at 10).
Proof.
  cbv zeta.
  assert (Hne : Get (Sample.request
                       ("Bearer " ++
                        fst (fst (@GenerateAccessToken PlainLib.lib 42 "admin" Sample.world)))
                       "k-1") "Authorization" <> "") by discriminate.
  destruct (authorization_header_takes_precedence PlainLib.lib _ (Sample.world_at 10) Hne)
    as (H1 & H2 & _ & _).
  split; [exact Hne|]. split; [reflexivity|].
  split; [apply H1; reflexivity|exact H2].
Defined.

(** C5, as the specification words it, fails on three kinds of header:
    "Bearer a b" has three white-space separated tokens and is not answered
    as malformed; "Bearer" followed by a tab and a token has two and is
    answered as malformed; with two spaces after "Bearer" the text handed to
    verification starts with a space. *)
Lemma bearer_header_not_two_fields :
  spec_bearer_token "Bearer a b" = None /\
  fst (@AuthMiddleware PlainLib.lib (Sample.request "Bearer a b" "") Sample.world)
    <> MalformedHeader /\
  spec_bearer_token (String.append "Bearer" (String (ascii_of_nat 9) "abc")) = Some "abc" /\
  fst (@AuthMiddleware PlainLib.lib
         (Sample.request (String.append "Bearer" (String (ascii_of_nat 9) "abc")) "")
         Sample.world) = MalformedHeader /\
  spec_bearer_token "Bearer  abc" = Some "abc" /\
  strings.SplitN "Bearer  abc" " " 2 = ["Bearer"; " abc"].
Proof.
  split; [reflexivity|]. split; [vm_compute; discriminate|].
  split; [reflexivity|]. split; [reflexivity|]. split; reflexivity.
Qed.

(** C5, amended.  A non-empty Authorization header is answered as malformed
    exactly when it has no space or the text before its first space is not
    "Bearer" up to ASCII case; otherwise all the text after the first space is
    handed to [ValidateJWT], whose result decides the answer. *)
Theorem bearer_header_split_at_first_space (L : JwtLib) (c : Ctx) (w : World) :
  Get c "Authorization" <> "" ->
  (strings.Contains (Get c "Authorization") " " = false ->
   fst (AuthMiddleware c w) = MalformedHeader) /\
  (forall scheme tok,
     Get c "Authorization" = scheme ++ " " ++ tok ->
     strings.Contains scheme " " = false ->
     (strings.EqualFold scheme "Bearer" = false ->
      fst (AuthMiddleware c w) = MalformedHeader) /\
     (strings.EqualFold scheme "Bearer" = true ->
      fst (AuthMiddleware c w) = after_ValidateJWT (fst (ValidateJWT tok w)) /\
      fst (AuthMiddleware c w) <> MalformedHeader)).
Proof.
  intros Hne. rewrite (AuthMiddleware_authorization c w Hne). split.
  - intros Hc. apply Cut_none in Hc. now rewrite Hc.
  - intros scheme tok Hh Hs.
    rewrite (proj2 (Cut_some _ scheme tok " ") (conj Hh Hs)).
    split; intros ->; [reflexivity|]. cbn [fst].
    split; [reflexivity|apply after_ValidateJWT_not_malformed].
Qed.

Lemma bearer_header_split_at_first_space_witness :
  Get (Sample.request "bearer a b" "") "Authorization" <> "" /\
  "bearer a b" = "bearer" ++ " " ++ "a b" /\
  strings.Contains "bearer" " " = false /\
  strings.EqualFold "bearer" "Bearer" = true /\
  fst (@AuthMiddleware PlainLib.lib (Sample.request "bearer a b" "") Sample.world) =
    after_ValidateJWT (fst (@ValidateJWT PlainLib.lib "a b" Sample.world)).
Proof.
  assert (Hne : Get (Sample.request "bearer a b" "") "Authorization" <> "")
    by discriminate.
  split; [exact Hne|]. split; [reflexivity|]. split; [reflexivity|].
  split; [reflexivity|].
  destruct (bearer_header_split_at_first_space PlainLib.lib
              (Sample.request "bearer a b" "") Sample.world Hne) as [_ H].
  destruct (H "bearer" "a b" eq_refl eq_refl) as [_ H'].
  exact (proj1 (H' eq_refl)).
Defined.

(** C9.  A request without Authorization header and with the api-key header
    [key], on a store that executes the statement: it is let through with the
    user id, client and scope of the row whose key is [key] when that row is
    active; it gets one and the same answer when the row is inactive and when
    there is no such row; and it is let through only if an active row with
    that key exists. *)
Theorem api_key_lookup_active_only (L : JwtLib) (c : Ctx) (w : World) (key : string) :
  Get c "Authorization" = "" -> Get c "api-key" = key -> key <> "" ->
  outage w O = false -> wf_db (store w) ->
  (forall k, In k (api_keys (store w)) -> ApiKey.Key k = key ->
             ApiKey.IsActive k = true ->
             fst (AuthMiddleware c w) = AuthenticatedAPIKey k) /\
  (forall k, In k (api_keys (store w)) -> ApiKey.Key k = key ->
             ApiKey.IsActive k = false ->
             fst (AuthMiddleware c w) = InvalidKey) /\
  ((forall k, In k (api_keys (store w)) -> ApiKey.Key k <> key) ->
   fst (AuthMiddleware c w) = InvalidKey) /\
  (forall locals, fst (AuthMiddleware c w) = Next locals ->
     exists k, In k (api_keys (store w)) /\ ApiKey.Key k = key /\
               ApiKey.IsActive k = true /\ Next locals = AuthenticatedAPIKey k).
Proof.
  intros Ha Hk Hne Hup (_ & _ & _ & _ & Hnd).
  assert (Hrun : fst (AuthMiddleware c w) =
    match find (fun k => String.eqb (ApiKey.Key k) key
                         && Bool.eqb (ApiKey.IsActive k) true) (api_keys (store w)) with
    | Some k => AuthenticatedAPIKey k
    | None => InvalidKey
    end).
  { unfold AuthMiddleware. rewrite Ha, Hk. cbn [String.eqb negb].
    destruct (String.eqb key "") eqn:E; [now apply String.eqb_eq in E|].
    cbn [negb]. unfold bind, gorm.First_ApiKey, statement. rewrite Hup.
    destruct (find _ _); reflexivity. }
  rewrite Hrun. clear Hrun.
  destruct (find _ (api_keys (store w))) as [k0|] eqn:Ef.
  - apply find_some in Ef as [Hin0 Hp]. apply andb_true_iff in Hp as [Hk0 Hact0].
    apply String.eqb_eq in Hk0. apply Bool.eqb_prop in Hact0.
    assert (Huniq : forall k, In k (api_keys (store w)) -> ApiKey.Key k = key -> k = k0).
    { intros k Hin Hkey. apply (NoDup_map_inj ApiKey.Key (api_keys (store w)));
        congruence. }
    split; [|split; [|split]].
    + intros k Hin Hkey _. now rewrite (Huniq k Hin Hkey).
    + intros k Hin Hkey Hina. rewrite (Huniq k Hin Hkey) in Hina. congruence.
    + intros Hno. now apply Hno in Hin0.
    + intros locals H. exists k0. repeat split; auto.
  - split; [|split; [|split]].
    + intros k Hin Hkey Hact. apply (find_none _ _ Ef) in Hin. cbv beta in Hin.
      rewrite Hkey, String.eqb_refl, Hact in Hin. discriminate.
    + reflexivity.
    + reflexivity.
    + discriminate.
Qed.

Lemma api_key_lookup_active_only_witness :
  Get (Sample.request "" "k-1") "Authorization" = "" /\
  outage Sample.world O = false /\ wf_db (store Sample.world) /\
  fst (@AuthMiddleware PlainLib.lib (Sample.request "" "k-1") Sample.world) =
    AuthenticatedAPIKey (ApiKey.mk "k-1" 7 "ci" "deploy" true) /\
  fst (@AuthMiddleware PlainLib.lib (Sample.request "" "k-2") Sample.world) =
    InvalidKey /\
  fst (@AuthMiddleware PlainLib.lib (Sample.request "" "k-3") Sample.world) =
    InvalidKey.
Proof.
  split; [reflexivity|]. split; [reflexivity|]. split; [exact wf_sample|].
  split; [|split].
  - destruct (api_key_lookup_active_only PlainLib.lib (Sample.request "" "k-1")
                Sample.world "k-1" eq_refl eq_refl) as (H & _);
      [discriminate|reflexivity|exact wf_sample|].
    apply H; [left; reflexivity|reflexivity|reflexivity].
  - destruct (api_key_lookup_active_only PlainLib.lib (Sample.request "" "k-2")
                Sample.world "k-2" eq_refl eq_refl) as (_ & H & _);
      [discriminate|reflexivity|exact wf_sample|].
    apply (H (ApiKey.mk "k-2" 8 "old" "read" false));
      [right; left; reflexivity|reflexivity|reflexivity].
  - destruct (api_key_lookup_active_only PlainLib.lib (Sample.request "" "k-3")
                Sample.world "k-3" eq_refl eq_refl) as (_ & _ & H & _);
      [discriminate|reflexivity|exact wf_sample|].
    apply H. intros k [<-|[<-|[]]]; discriminate.
Defined.

(** ** The refresh endpoint *)

(** Every error of [RefreshAndRevokeToken] gets the same answer. *)
Lemma RefreshTokenHandler_on_error (L : JwtLib) (c : Ctx) (w : World) :
  FormValue c "refresh_token" <> "" ->
  snd (fst (RefreshAndRevokeToken (FormValue c "refresh_token") w)) <> None ->
  fst (RefreshTokenHandler c w) = InvalidRefreshToken.
Proof.
  intros Hne Herr. unfold RefreshTokenHandler.
  destruct (String.eqb (FormValue c "refresh_token") "") eqn:E;
    [now apply String.eqb_eq in E|].
  unfold bind.
  destruct (RefreshAndRevokeToken _ w) as [[[a r] [e|]] w']; [reflexivity|].
  now cbn in Herr.
Qed.

(** C7.  The refresh endpoint at three failing requests: an unknown token; a
    valid token whose owner has been removed; a valid token when the lookup
    of the owner fails in the store.  The service returns the same
    record-not-found error in the first two, and the endpoint gives the same
    answer in all three. *)
Lemma refresh_owner_failure_reported_as_invalid_token :
  fst (@RefreshAndRevokeToken PlainLib.lib "nope" Sample.world) =
    ("", "", Some ErrRecordNotFound) /\
  fst (@RefreshTokenHandler PlainLib.lib (Sample.refresh_request "nope") Sample.world) =
    InvalidRefreshToken /\
  fst (@RefreshAndRevokeToken PlainLib.lib "r-1" Sample.orphan_world) =
    ("", "", Some ErrRecordNotFound) /\
  fst (@RefreshTokenHandler PlainLib.lib (Sample.refresh_request "r-1")
         Sample.orphan_world) = InvalidRefreshToken /\
  fst (@RefreshAndRevokeToken PlainLib.lib "r-1" (Sample.world_with_outage 1)) =
    ("", "", Some ErrStoreUnavailable) /\
  fst (@RefreshTokenHandler PlainLib.lib (Sample.refresh_request "r-1")
         (Sample.world_with_outage 1)) = InvalidRefreshToken.
Proof. repeat split; reflexivity. Qed.

(** ** Two refresh calls at once *)

Section RaceFacts.

Context {L : JwtLib}.

(** A call that sends its statements without interruption is the function
    [RefreshAndRevokeToken]. *)
Lemma refresh_steps_sequential (v : string) (w : World) :
  refresh_steps 4 (AtLookup v) w =
  (Returned (fst (RefreshAndRevokeToken v w)), snd (RefreshAndRevokeToken v w)).
Proof.
  unfold RefreshAndRevokeToken. cbn [refresh_steps refresh_step]. unfold bind, ret.
  destruct (time_Now w) as [now w1].
  destruct (gorm.First_RefreshToken v now w1) as [[oldToken [e|]] w2];
    [reflexivity|].
  cbn [refresh_step]. unfold bind, ret.
  destruct (gorm.First_User (RefreshToken.UserID oldToken) w2) as [[user [e|]] w3];
    [reflexivity|].
  cbn [refresh_step]. unfold bind, ret.
  destruct (gorm.Delete_RefreshToken oldToken w3) as [d w4].
  cbn [refresh_step]. unfold bind, ret.
  destruct (GenerateAuthToken user w4) as [[[a r] [e|]] w5]; reflexivity.
Qed.

Variable v : string.

Lemma step_issue_quiet (user : User.t) (w : World) :
  quiet v w ->
  exists res w', refresh_step (AtIssue user) w = (Returned res, w') /\ quiet v w'.
Proof.
  intros (Hup & Hu & Hno). cbn [refresh_step]. unfold bind at 1.
  rewrite GenerateAuthToken_eq. cbv zeta.
  unfold gorm.Create_RefreshToken, statement. cbn [outage store RefreshToken.Token].
  rewrite Hup.
  destruct (existsb _ (refresh_tokens (store w))); cbn.
  - eexists. eexists. split; [reflexivity|]. repeat split; cbn; auto.
    + intros n. apply Hup.
    + intros n. apply Hu.
  - eexists. eexists. split; [reflexivity|]. repeat split; cbn.
    + intros n. apply Hup.
    + intros n. apply Hu.
    + intros r Hr. apply in_app_or in Hr as [Hr|[<-|[]]]; [now apply Hno|].
      cbn. apply Hu.
Qed.

Lemma step_lookup_quiet (w : World) :
  quiet v w ->
  exists w',
    refresh_step (AtLookup v) w = (Returned ("", "", Some ErrRecordNotFound), w') /\
    quiet v w'.
Proof.
  intros (Hup & Hu & Hno). cbn [refresh_step].
  unfold bind, time_Now, gorm.First_RefreshToken, statement. cbn [outage store].
  rewrite Hup, (find_token_absent _ v _ Hno). cbn.
  eexists. split; [reflexivity|]. repeat split; cbn; auto. intros n. apply Hup.
Qed.

Lemma interleave_quiet (owner : User.t) (sched : list Caller) :
  forall (a b : RefreshPc) (w : World),
    quiet v w ->
    (a = AtIssue owner \/ exists res, a = Returned res) ->
    (b = AtLookup v \/ b = Returned ("", "", Some ErrRecordNotFound)) ->
    snd (fst (interleave sched a b w)) =
      if runs_B sched then Returned ("", "", Some ErrRecordNotFound) else b.
Proof.
  induction sched as [|who sched IH]; intros a b w Hq Ha Hb; [reflexivity|].
  destruct who; cbn [interleave runs_B existsb orb]; unfold bind.
  - destruct Ha as [->|[res ->]].
    + destruct (step_issue_quiet owner w Hq) as (res & w' & -> & Hq').
      apply IH; eauto.
    + cbn [refresh_step]. unfold ret. apply IH; eauto.
  - destruct Hb as [->| ->].
    + destruct (step_lookup_quiet w Hq) as (w' & -> & Hq').
      rewrite (IH a _ w' Hq' Ha (or_intror eq_refl)). now destruct (runs_B sched).
    + cbn [refresh_step]. unfold ret.
      rewrite (IH a _ w Hq Ha (or_intror eq_refl)). now destruct (runs_B sched).
Qed.

(** The first three statements of a call with a valid token of an existing
    user: the row is found, the owner is found, the row is deleted. *)
Lemma refresh_three_steps (w : World) (row : RefreshToken.t) (owner : User.t)
  (sched : list Caller) (b : RefreshPc) :
  wf_db (store w) -> healthy w ->
  In row (refresh_tokens (store w)) ->
  clock w O < RefreshToken.ExpiryDate row ->
  In owner (users (store w)) -> User.ID owner = RefreshToken.UserID row ->
  interleave (CallerA :: CallerA :: CallerA :: sched) (AtLookup (RefreshToken.Token row)) b w =
  interleave sched (AtIssue owner) b
    (mkWorld
       (mkDB (users (store w))
          (filter (fun r => negb (N.eqb (RefreshToken.ID r) (RefreshToken.ID row)))
                  (refresh_tokens (store w)))
          (refresh_tokens_seq (store w)) (api_keys (store w)))
       (environ w) (tail (clock w)) (uuids w) (tail (tail (tail (outage w))))).
Proof.
  intros (Htok & Hids & Hrange & Husers & _) Hup Hrow Hexp Huser Hown.
  cbn [interleave refresh_step].
  unfold bind at 1. unfold bind at 1. unfold time_Now at 1.
  unfold bind at 1. unfold gorm.First_RefreshToken, statement at 1.
  cbn [outage store]. rewrite (Hup O).
  rewrite (find_token_found _ row) by assumption.
  unfold ret at 1. cbn [refresh_step].
  unfold bind at 1. unfold bind at 1. unfold gorm.First_User, statement at 1.
  cbn [outage store].
  change (tail (outage w) O) with (outage w 1%nat). rewrite (Hup 1%nat).
  rewrite <- Hown. rewrite (find_user_found _ owner) by assumption.
  unfold ret at 1. cbn [refresh_step].
  unfold bind at 1. unfold bind at 1. unfold gorm.Delete_RefreshToken.
  destruct (N.eqb (RefreshToken.ID row) 0) eqn:Ez.
  { apply N.eqb_eq in Ez. apply Hrange in Hrow. lia. }
  unfold statement at 1. cbn [outage store].
  change (tail (tail (outage w)) O) with (outage w 2%nat). rewrite (Hup 2%nat).
  reflexivity.
Qed.

End RaceFacts.

(** C3, as stated, fails: both calls find the row before either deletes it,
    and both return a new pair of tokens. *)
Lemma concurrent_refresh_both_succeed :
  exists accessA accessB,
    fst (@interleave PlainLib.lib
           [CallerA; CallerB; CallerA; CallerB; CallerA; CallerB; CallerA; CallerB]
           (AtLookup "r-1") (AtLookup "r-1") Sample.world) =
    (Returned (accessA, "u-0", None), Returned (accessB, "u-1", None)).
Proof. eexists. eexists. vm_compute. reflexivity. Qed.

(** C3, amended.  Two calls with the same stored, unexpired value of an
    existing user, on a store that executes its statements and with random
    values other than that value: once the first call has sent its lookup,
    its user lookup and its delete, the second call fails with
    record-not-found as soon as it runs, however the remaining statements
    are scheduled. *)
Theorem concurrent_refresh_after_delete_fails (L : JwtLib) (w : World) (v : string)
  (row : RefreshToken.t) (owner : User.t) (sched : list Caller) :
  wf_db (store w) -> healthy w ->
  In row (refresh_tokens (store w)) -> RefreshToken.Token row = v ->
  clock w O < RefreshToken.ExpiryDate row ->
  In owner (users (store w)) -> User.ID owner = RefreshToken.UserID row ->
  (forall n, uuids w n <> v) ->
  snd (fst (interleave (CallerA :: CallerA :: CallerA :: sched)
              (AtLookup v) (AtLookup v) w)) =
    if runs_B sched then Returned ("", "", Some ErrRecordNotFound) else AtLookup v.
Proof.
  intros Hwf Hup Hrow <- Hexp Howner Hown Hu.
  rewrite (refresh_three_steps w row owner) by assumption.
  apply (interleave_quiet (RefreshToken.Token row) owner).
  - repeat split; cbn.
    + intros n. apply Hup.
    + exact Hu.
    + apply delete_removes_token; [apply Hwf|assumption].
  - now left.
  - now left.
Qed.

Lemma concurrent_refresh_after_delete_fails_witness :
  wf_db (store Sample.world) /\ healthy Sample.world /\
  (forall n, uuids Sample.world n <> "r-1") /\
  snd (fst (@interleave PlainLib.lib
              [CallerA; CallerA; CallerA; CallerB; CallerA; CallerB]
              (AtLookup "r-1") (AtLookup "r-1") Sample.world)) =
    Returned ("", "", Some ErrRecordNotFound).
Proof.
  assert (Hu : forall n, uuids Sample.world n <> "r-1")
    by (intros [|[|n]]; discriminate).
  split; [exact wf_sample|]. split; [exact healthy_sample|]. split; [exact Hu|].
  apply (concurrent_refresh_after_delete_fails PlainLib.lib Sample.world "r-1"
           (RefreshToken.mk 1 42 "r-1" 5000) Sample.ann [CallerB; CallerA; CallerB]).
  - exact wf_sample.
  - exact healthy_sample.
  - left. reflexivity.
  - reflexivity.
  - reflexivity.
  - left. reflexivity.
  - reflexivity.
  - exact Hu.
Defined.

(** * Further properties of the code *)

(** ** The codec on its own *)

Section CodecMore.

Context {L : JwtLib} {HL : JwtLibLaws L}.


Lemma GetSigningMethod_HMAC (a : string) (h : jwt.Hash) :
  jwt.GetSigningMethod a = Some (jwt.SigningMethodHMAC h) ->
  a = "HS256" \/ a = "HS384" \/ a = "HS512".
Proof.
  unfold jwt.GetSigningMethod.
  destruct (String.eqb a "HS256") eqn:E1; [apply String.eqb_eq in E1; auto|].
  destruct (String.eqb a "HS384") eqn:E2; [apply String.eqb_eq in E2; auto|].
  destruct (String.eqb a "HS512") eqn:E3; [apply String.eqb_eq in E3; auto|].
  destruct (existsb _ _); [discriminate|].
  destruct (String.eqb a "none"); discriminate.
Qed.

End CodecMore.

(** X1.  A token string that does not consist of exactly three dot-separated
    segments (the empty string, a string without dots, four segments) is
    refused as malformed, before the secret or the clock is read. *)
Theorem validate_rejects_wrong_segment_count (L : JwtLib) (tok : string) (w : World) :
  List.length (strings.Split tok ".") <> 3%nat ->
  ValidateJWT tok w = ((None, Some ErrTokenMalformed), w).
Proof.
  intros Hlen. unfold ValidateJWT, ParseWithClaims, ParseUnverified. run_monad.
  destruct (strings.Split tok ".") as [|p0 [|p1 [|p2 [|p3 l]]]]; try reflexivity.
  now contradiction Hlen.
Qed.

Lemma validate_rejects_wrong_segment_count_witness :
  List.length (strings.Split "" ".") <> 3%nat /\
  List.length (strings.Split "a.b.c.d" ".") <> 3%nat /\
  @ValidateJWT PlainLib.lib "" Sample.world = ((None, Some ErrTokenMalformed), Sample.world) /\
  @ValidateJWT PlainLib.lib "a.b.c.d" Sample.world =
    ((None, Some ErrTokenMalformed), Sample.world).
Proof.
  assert (H1 : List.length (strings.Split "" ".") <> 3%nat) by discriminate.
  assert (H2 : List.length (strings.Split "a.b.c.d" ".") <> 3%nat) by discriminate.
  split; [exact H1|]. split; [exact H2|]. split.
  - exact (validate_rejects_wrong_segment_count PlainLib.lib "" Sample.world H1).
  - exact (validate_rejects_wrong_segment_count PlainLib.lib "a.b.c.d" Sample.world H2).
Defined.





(** X4.  A token whose header names a signing method outside the HMAC family
    ("none", "RS256", an unknown name) is refused whatever its payload and
    signature: the secret is a byte string, which only the HMAC methods take
    as a key. *)
Theorem validate_refuses_other_algorithms (L : JwtLib) (HL : JwtLibLaws L)
  (typ alg rest : string) (w : World) :
  alg <> "HS256" -> alg <> "HS384" -> alg <> "HS512" ->
  exists e,
    fst (ValidateJWT (EncodeSegment (marshalHeader (jwt.mkHeader typ alg)) ++ "." ++ rest) w) =
      (None, Some e).
Proof.
  intros H1 H2 H3.
  destruct (ValidateJWT_cases
              (EncodeSegment (marshalHeader (jwt.mkHeader typ alg)) ++ "." ++ rest) w)
    as [[c Hc]|H]; [exfalso|exact H].
  apply ValidateJWT_inv in Hc
    as (p0 & p1 & p2 & hb & hdr & cb & m & sg & Hs & E0 & E1 & _ & _ & E4 & _ & E6 & _).
  change ("." ++ rest) with (String "." rest) in Hs.
  rewrite Split_app, Split_no_sep in Hs by apply encode_no_dot.
  injection Hs as <- _.
  rewrite decode_encode in E0. injection E0 as <-.
  rewrite unmarshal_marshal_header in E1. injection E1 as <-.
  cbn [jwt.alg] in E4.
  destruct m as [h| |]; try discriminate E6.
  apply GetSigningMethod_HMAC in E4 as [E|[E|E]]; contradiction.
Qed.

Lemma validate_refuses_other_algorithms_witness :
  JwtLibLaws PlainLib.lib /\ "none" <> "HS256" /\
  exists e,
    fst (@ValidateJWT PlainLib.lib
           (@EncodeSegment PlainLib.lib
              (@marshalHeader PlainLib.lib (jwt.mkHeader "JWT" "none")) ++ "." ++
            "3031303130313b3130303031303030303131313b303061646d696e.") Sample.world) =
      (None, Some e).
Proof.
  split; [exact PlainLibFacts.laws|]. split; [discriminate|].
  apply (validate_refuses_other_algorithms PlainLib.lib PlainLibFacts.laws);
    discriminate.
Defined.

(** X5.  Issuing and verifying a token send no statement to the store and
    draw no random value: they leave the tables, the statement stream, the
    random stream and the environment as they were. *)
Theorem codec_leaves_store_alone (L : JwtLib) (userID : N) (role tok : string)
  (w : World) :
  let wi := snd (GenerateAccessToken userID role w) in
  let wv := snd (ValidateJWT tok w) in
  (store wi = store w /\ outage wi = outage w /\ uuids wi = uuids w /\
   environ wi = environ w) /\
  (store wv = store w /\ outage wv = outage w /\ uuids wv = uuids w /\
   environ wv = environ w).
Proof.
  cbv zeta. split; [|apply ValidateJWT_frame].
  unfold GenerateAccessToken. run_monad. cbn. repeat split.
Qed.

(** ** The store under login and refresh *)

(** Removing rows keeps a column unique. *)
Lemma filter_keeps_unique {Row Key : Type} (column : Row -> Key) (keep : Row -> bool) :
  forall rows : list Row,
    NoDup (map column rows) -> NoDup (map column (filter keep rows)).
Proof.
  intros rows. induction rows as [|row rows IH]; cbn [filter map]; intros Huniq.
  - exact Huniq.
  - inversion Huniq as [|? ? Hfresh Hrest]; subst.
    destruct (keep row); cbn [map]; [|now apply IH].
    constructor; [|now apply IH].
    intros Hin. apply Hfresh.
    apply in_map_iff in Hin as (other & Hsame & Hin).
    apply filter_In in Hin as [Hin _].
    rewrite <- Hsame. now apply in_map.
Qed.

Lemma Create_keeps_schema (row : RefreshToken.t) (w : World) :
  wf_db (store w) -> wf_db (store (snd (gorm.Create_RefreshToken row w))).
Proof.
  intros Hwf. unfold gorm.Create_RefreshToken, statement.
  destruct (outage w O); [exact Hwf|].
  destruct (existsb _ _) eqn:Ex; [exact Hwf|].
  destruct Hwf as (Htok & Hids & Hrange & Husers & Hkeys).
  cbn [snd store]. unfold wf_db.
  cbn [refresh_tokens refresh_tokens_seq users api_keys].
  rewrite !map_app. cbn [map RefreshToken.Token RefreshToken.ID].
  split; [|split; [|split; [|split]]]; try assumption.
  - apply NoDup_app; [assumption|repeat constructor; intros []|].
    intros t Ht [<-|[]]. apply in_map_iff in Ht as (r & Hr & Hin).
    assert (existsb (fun r0 => String.eqb (RefreshToken.Token r0) (RefreshToken.Token row))
              (refresh_tokens (store w)) = true); [|congruence].
    apply existsb_exists. exists r. split; [assumption|now apply String.eqb_eq].
  - apply NoDup_app; [assumption|repeat constructor; intros []|].
    intros i Hi [<-|[]]. apply in_map_iff in Hi as (r & Hr & Hin).
    apply Hrange in Hin. lia.
  - intros r Hr. apply in_app_or in Hr as [Hr|[<-|[]]].
    + apply Hrange in Hr. lia.
    + cbn. lia.
Qed.

Lemma Delete_keeps_schema (row : RefreshToken.t) (w : World) :
  wf_db (store w) -> wf_db (store (snd (gorm.Delete_RefreshToken row w))).
Proof.
  intros Hwf. unfold gorm.Delete_RefreshToken.
  destruct (N.eqb (RefreshToken.ID row) 0); [exact Hwf|].
  unfold statement. destruct (outage w O); [exact Hwf|].
  destruct Hwf as (Htok & Hids & Hrange & Husers & Hkeys).
  cbn [snd store]. unfold wf_db.
  cbn [refresh_tokens refresh_tokens_seq users api_keys].
  split; [|split; [|split; [|split]]]; try assumption.
  - now apply filter_keeps_unique.
  - now apply filter_keeps_unique.
  - intros r Hr. apply filter_In in Hr as [Hr _]. now apply Hrange.
Qed.

Section ServiceMore.

Context {L : JwtLib}.

Lemma GenerateAuthToken_keeps_schema (user : User.t) (w : World) :
  wf_db (store w) -> wf_db (store (snd (GenerateAuthToken user w))).
Proof.
  intros Hwf. rewrite GenerateAuthToken_eq. cbv zeta.
  match goal with |- context [gorm.Create_RefreshToken ?r ?x] =>
    pose proof (Create_keeps_schema r x Hwf) as Hc;
    destruct (gorm.Create_RefreshToken r x) as [[e|] w3] end; exact Hc.
Qed.

(** A login on a store that executes the statement, with a random value not
    yet stored. *)
Lemma login_succeeds (user : User.t) (w : World) :
  outage w O = false ->
  (forall r, In r (refresh_tokens (store w)) -> RefreshToken.Token r <> uuids w O) ->
  GenerateAuthToken user w =
    ((fst (fst (GenerateAccessToken (User.ID user) (User.Role user) w)), uuids w O, None),
     mkWorld
       (mkDB (users (store w))
          (refresh_tokens (store w) ++
           [RefreshToken.mk (N.succ (refresh_tokens_seq (store w))) (User.ID user)
              (uuids w O) (time.Add (clock w 1%nat) (30 * 24 * time.Hour))])
          (N.succ (refresh_tokens_seq (store w))) (api_keys (store w)))
       (environ w) (tail (tail (clock w))) (tail (uuids w)) (tail (outage w))).
Proof.
  intros Hup Hfresh. rewrite GenerateAuthToken_eq. cbv zeta.
  unfold gorm.Create_RefreshToken, statement. cbn [outage store RefreshToken.Token].
  rewrite Hup, (existsb_token_absent _ _ Hfresh). reflexivity.
Qed.

End ServiceMore.

(** X6.  [GenerateAuthToken] keeps the constraints of the schema, whatever it
    returns: tokens stay unique, primary keys stay unique and within the
    counter. *)
Theorem login_keeps_schema (L : JwtLib) (user : User.t) (w : World) :
  wf_db (store w) -> wf_db (store (snd (GenerateAuthToken user w))).
Proof. apply GenerateAuthToken_keeps_schema. Qed.

Lemma login_keeps_schema_witness :
  wf_db (store Sample.world) /\
  wf_db (store (snd (@GenerateAuthToken PlainLib.lib Sample.ann Sample.world))).
Proof.
  split; [exact wf_sample|].
  exact (login_keeps_schema PlainLib.lib Sample.ann Sample.world wf_sample).
Defined.

Lemma RefreshAndRevokeToken_keeps_schema (L : JwtLib) (v : string) (w : World) :
  wf_db (store w) -> wf_db (store (snd (RefreshAndRevokeToken v w))).
Proof.
  intros Hwf. unfold RefreshAndRevokeToken.
  unfold bind at 1. unfold time_Now at 1.
  unfold bind at 1. unfold gorm.First_RefreshToken, statement at 1. cbn [outage store].
  destruct (outage w O); [exact Hwf|].
  destruct (find _ (refresh_tokens (store w))) as [oldToken|]; [|exact Hwf].
  unfold bind at 1. unfold gorm.First_User, statement at 1. cbn [outage store].
  destruct (tail (outage w) O); [exact Hwf|].
  destruct (find _ (users (store w))) as [user|]; [|exact Hwf].
  unfold bind at 1.
  match goal with |- context [gorm.Delete_RefreshToken ?r ?x] =>
    pose proof (Delete_keeps_schema r x Hwf) as Hd;
    destruct (gorm.Delete_RefreshToken r x) as [d w4] end.
  cbn [snd] in Hd. unfold bind at 1.
  pose proof (GenerateAuthToken_keeps_schema user w4 Hd) as Hg.
  destruct (GenerateAuthToken user w4) as [[[a r] [e|]] w5]; exact Hg.
Qed.

(** X7.  [RefreshAndRevokeToken] keeps the constraints of the schema, whatever
    the token value and whatever it returns, also when a statement fails in
    between. *)
Theorem refresh_keeps_schema (L : JwtLib) (v : string) (w : World) :
  wf_db (store w) -> wf_db (store (snd (RefreshAndRevokeToken v w))).
Proof. apply RefreshAndRevokeToken_keeps_schema. Qed.

Lemma refresh_keeps_schema_witness :
  wf_db (store Sample.world) /\
  wf_db (store (snd (@RefreshAndRevokeToken PlainLib.lib "r-1" Sample.world))).
Proof.
  split; [exact wf_sample|].
  exact (refresh_keeps_schema PlainLib.lib "r-1" Sample.world wf_sample).
Defined.





(** X10.  A login revokes nothing: whatever [GenerateAuthToken] returns,
    every refresh-token row stored before is still stored, at most one row is
    added, and the users and the API keys are untouched. *)
Theorem login_revokes_nothing (L : JwtLib) (user : User.t) (w : World) :
  let w' := snd (GenerateAuthToken user w) in
  (forall r, In r (refresh_tokens (store w)) -> In r (refresh_tokens (store w'))) /\
  (List.length (refresh_tokens (store w')) <=
     S (List.length (refresh_tokens (store w))))%nat /\
  users (store w') = users (store w) /\
  api_keys (store w') = api_keys (store w).
Proof.
  cbv zeta. rewrite GenerateAuthToken_eq. cbv zeta.
  unfold gorm.Create_RefreshToken, statement. cbn [outage store].
  destruct (outage w O); [cbn; repeat split; auto|].
  destruct (existsb _ _); cbn; [repeat split; auto|].
  repeat split.
  - intros r Hr. apply in_or_app. now left.
  - rewrite length_app. cbn. lia.
Qed.





(** ** The endpoints *)


(** X13.  The refresh endpoint answers 400 exactly when the form value
    [refresh_token] is missing or empty, and then reads and writes nothing. *)
Theorem refresh_handler_missing_token (L : JwtLib) (c : Ctx) (w : World) :
  (FormValue c "refresh_token" = "" ->
   RefreshTokenHandler c w =
     (Respond StatusBadRequest [("error", JString "Missing refresh token")], w)) /\
  (FormValue c "refresh_token" <> "" ->
   forall body, fst (RefreshTokenHandler c w) <> Respond StatusBadRequest body).
Proof.
  unfold RefreshTokenHandler. split.
  - intros ->. reflexivity.
  - intros Hne body.
    destruct (String.eqb (FormValue c "refresh_token") "") eqn:E;
      [now apply String.eqb_eq in E|].
    unfold bind.
    destruct (RefreshAndRevokeToken _ w) as [[[a r] [e|]] w']; discriminate.
Qed.



Section LoginFacts.

Context {L : JwtLib}.
Variable BodyParser : Ctx -> option LoginRequest.t.
Variable CheckPasswordHash : string -> string -> bool.

Lemma find_username_found (l : list User.t) (u : User.t) :
  NoDup (map User.Username l) -> In u l ->
  find (fun x => String.eqb (User.Username x) (User.Username u)) l = Some u.
Proof.
  intros Hnd Hin.
  destruct (find _ l) as [u'|] eqn:E.
  - apply find_some in E as [Hin' Hp]. apply String.eqb_eq in Hp. f_equal.
    now apply (NoDup_map_inj User.Username l).
  - apply (find_none _ _ E) in Hin. cbv beta in Hin.
    rewrite String.eqb_refl in Hin. discriminate.
Qed.

Lemma find_username_absent (l : list User.t) (name : string) :
  (forall u, In u l -> User.Username u <> name) ->
  find (fun x => String.eqb (User.Username x) name) l = None.
Proof.
  intros H. destruct (find _ l) as [u|] eqn:E; [|reflexivity].
  apply find_some in E as [Hin Hp]. apply String.eqb_eq in Hp. now apply H in Hin.
Qed.

(** The handler once the request is parsed and the user row is found. *)
Lemma LoginHandler_found (c : Ctx) (w : World) (req : LoginRequest.t) (u : User.t) :
  BodyParser c = Some req -> outage w O = false ->
  NoDup (map User.Username (users (store w))) ->
  In u (users (store w)) -> User.Username u = LoginRequest.Username req ->
  LoginHandler BodyParser CheckPasswordHash c w =
  let w1 := mkWorld (store w) (environ w) (clock w) (uuids w) (tail (outage w)) in
  if negb (CheckPasswordHash (LoginRequest.Password req) (User.PasswordHash u))
  then (InvalidCredentials, w1)
  else
    match GenerateAuthToken u w1 with
    | ((_, _, Some _), w2) =>
        (Respond StatusInternalServerError
           [("error", JString "Failed to generate tokens")], w2)
    | ((accessToken, refreshToken, None), w2) =>
        (Respond StatusOK
           [("access_token", JString accessToken);
            ("refresh_token", JString refreshToken);
            ("token_type", JString "Bearer");
            ("expires_in", JNumber (15 * 60))], w2)
    end.
Proof.
  intros Hp Hup Hnd Hin Hname. unfold LoginHandler. rewrite Hp.
  unfold bind at 1. unfold First_User_by_username, statement. rewrite Hup.
  rewrite <- Hname, (find_username_found _ u) by assumption. cbv zeta.
  destruct (CheckPasswordHash _ _); cbn [negb]; [|reflexivity].
  unfold bind.
  destruct (GenerateAuthToken u _) as [[[a r] [e|]] w2]; reflexivity.
Qed.

End LoginFacts.

(** X15.  The login endpoint gives one and the same answer, 401 "Invalid
    username or password", for a username that no user has and for a known
    username with a password the check refuses; in both cases no token is
    issued and the store is left as it was. *)
Theorem login_handler_rejects_alike (L : JwtLib)
  (BodyParser : Ctx -> option LoginRequest.t)
  (CheckPasswordHash : string -> string -> bool)
  (c : Ctx) (w : World) (req : LoginRequest.t) :
  BodyParser c = Some req -> outage w O = false ->
  NoDup (map User.Username (users (store w))) ->
  ((forall u, In u (users (store w)) -> User.Username u <> LoginRequest.Username req) \/
   (exists u, In u (users (store w)) /\ User.Username u = LoginRequest.Username req /\
              CheckPasswordHash (LoginRequest.Password req) (User.PasswordHash u) = false)) ->
  fst (LoginHandler BodyParser CheckPasswordHash c w) = InvalidCredentials /\
  store (snd (LoginHandler BodyParser CheckPasswordHash c w)) = store w /\
  uuids (snd (LoginHandler BodyParser CheckPasswordHash c w)) = uuids w.
Proof.
  intros Hp Hup Hnd [Hno|(u & Hin & Hname & Hcheck)].
  - unfold LoginHandler. rewrite Hp.
    unfold bind, First_User_by_username, statement. rewrite Hup.
    rewrite (find_username_absent _ _ Hno). cbn. repeat split.
  - rewrite (LoginHandler_found BodyParser CheckPasswordHash c w req u) by assumption.
    cbv zeta. rewrite Hcheck. cbn. repeat split.
Qed.

Lemma login_handler_rejects_alike_witness :
  SampleLogin.parse (SampleLogin.login_request "ann" "guess") =
    Some (LoginRequest.mk "ann" "guess") /\
  outage Sample.world O = false /\
  fst (@LoginHandler PlainLib.lib SampleLogin.parse SampleLogin.check
         (SampleLogin.login_request "ann" "guess") Sample.world) = InvalidCredentials /\
  fst (@LoginHandler PlainLib.lib SampleLogin.parse SampleLogin.check
         (SampleLogin.login_request "bob" "guess") Sample.world) = InvalidCredentials.
Proof.
  split; [reflexivity|]. split; [reflexivity|]. split.
  - apply (login_handler_rejects_alike PlainLib.lib SampleLogin.parse SampleLogin.check
             (SampleLogin.login_request "ann" "guess") Sample.world
             (LoginRequest.mk "ann" "guess")).
    + reflexivity.
    + reflexivity.
    + repeat constructor; cbn; intuition discriminate.
    + right. exists Sample.ann. split; [left; reflexivity|]. split; reflexivity.
  - apply (login_handler_rejects_alike PlainLib.lib SampleLogin.parse SampleLogin.check
             (SampleLogin.login_request "bob" "guess") Sample.world
             (LoginRequest.mk "bob" "guess")).
    + reflexivity.
    + reflexivity.
    + repeat constructor; cbn; intuition discriminate.
    + left. intros u [<-|[]]. discriminate.
Defined.

(** X16.  The login endpoint for a known user whose password the check
    accepts, on a store that executes its statements and with a random value
    not yet stored: the answer is 200 with the access token issued for that
    user, the random value as refresh token, "Bearer" and 900; and a row with
    that value, the user's id and an expiry thirty days ahead is stored. *)
Theorem login_handler_success (L : JwtLib)
  (BodyParser : Ctx -> option LoginRequest.t)
  (CheckPasswordHash : string -> string -> bool)
  (c : Ctx) (w : World) (req : LoginRequest.t) (u : User.t) :
  BodyParser c = Some req -> outage w O = false -> outage w 1%nat = false ->
  NoDup (map User.Username (users (store w))) ->
  In u (users (store w)) -> User.Username u = LoginRequest.Username req ->
  CheckPasswordHash (LoginRequest.Password req) (User.PasswordHash u) = true ->
  (forall r, In r (refresh_tokens (store w)) -> RefreshToken.Token r <> uuids w O) ->
  let w' := snd (LoginHandler BodyParser CheckPasswordHash c w) in
  (exists access,
     fst (LoginHandler BodyParser CheckPasswordHash c w) =
       Respond StatusOK
         [("access_token", JString access); ("refresh_token", JString (uuids w O));
          ("token_type", JString "Bearer"); ("expires_in", JNumber 900)] /\
     fst (GenerateAccessToken (User.ID u) (User.Role u) w) = (access, None)) /\
  In (RefreshToken.mk (N.succ (refresh_tokens_seq (store w))) (User.ID u) (uuids w O)
        (time.Add (clock w 1%nat) (30 * 24 * time.Hour)))
     (refresh_tokens (store w')).
Proof.
  intros Hp H0 H1 Hnd Hin Hname Hcheck Hfresh w'. subst w'.
  rewrite (LoginHandler_found BodyParser CheckPasswordHash c w req u) by assumption.
  cbv zeta. rewrite Hcheck. cbn [negb].
  rewrite login_succeeds by assumption.
  cbn [fst snd store refresh_tokens environ clock uuids outage users refresh_tokens_seq].
  split.
  - eexists. split; [reflexivity|]. rewrite !issued_token. reflexivity.
  - apply in_or_app. right. left. reflexivity.
Qed.

Lemma login_handler_success_witness :
  SampleLogin.parse (SampleLogin.login_request "ann" "$2a$hash") =
    Some (LoginRequest.mk "ann" "$2a$hash") /\
  SampleLogin.check "$2a$hash" (User.PasswordHash Sample.ann) = true /\
  exists access,
    fst (@LoginHandler PlainLib.lib SampleLogin.parse SampleLogin.check
           (SampleLogin.login_request "ann" "$2a$hash") Sample.world) =
      Respond StatusOK
        [("access_token", JString access); ("refresh_token", JString "u-0");
         ("token_type", JString "Bearer"); ("expires_in", JNumber 900)] /\
    fst (@GenerateAccessToken PlainLib.lib 42 "admin" Sample.world) = (access, None).
Proof.
  split; [reflexivity|]. split; [reflexivity|].
  apply (login_handler_success PlainLib.lib SampleLogin.parse SampleLogin.check
           (SampleLogin.login_request "ann" "$2a$hash") Sample.world
           (LoginRequest.mk "ann" "$2a$hash") Sample.ann).
  - reflexivity.
  - reflexivity.
  - reflexivity.
  - repeat constructor; cbn; intuition discriminate.
  - left. reflexivity.
  - reflexivity.
  - reflexivity.
  - exact fresh_sample.
Defined.

(** X17.  The failures of the login endpoint that are not the caller's: when
    the lookup of the user fails in the store the answer is 500 "Internal
    server error"; when the user is found and the password accepted but the
    refresh token cannot be stored, the answer is 500 "Failed to generate
    tokens", no token is returned and the store is left as it was. *)
Theorem login_handler_internal_errors (L : JwtLib)
  (BodyParser : Ctx -> option LoginRequest.t)
  (CheckPasswordHash : string -> string -> bool)
  (c : Ctx) (w : World) (req : LoginRequest.t) :
  BodyParser c = Some req ->
  (outage w O = true ->
   fst (LoginHandler BodyParser CheckPasswordHash c w) =
     Respond StatusInternalServerError [("error", JString "Internal server error")]) /\
  (forall u,
     outage w O = false -> outage w 1%nat = true ->
     NoDup (map User.Username (users (store w))) ->
     In u (users (store w)) -> User.Username u = LoginRequest.Username req ->
     CheckPasswordHash (LoginRequest.Password req) (User.PasswordHash u) = true ->
     fst (LoginHandler BodyParser CheckPasswordHash c w) =
       Respond StatusInternalServerError [("error", JString "Failed to generate tokens")] /\
     store (snd (LoginHandler BodyParser CheckPasswordHash c w)) = store w).
Proof.
  intros Hp. split.
  - intros Hdown. unfold LoginHandler. rewrite Hp.
    unfold bind, First_User_by_username, statement. now rewrite Hdown.
  - intros u H0 H1 Hnd Hin Hname Hcheck.
    rewrite (LoginHandler_found BodyParser CheckPasswordHash c w req u) by assumption.
    cbv zeta. rewrite Hcheck. cbn [negb].
    rewrite GenerateAuthToken_eq. cbv zeta.
    unfold gorm.Create_RefreshToken, statement. cbn [outage store].
    change (tail (outage w) O) with (outage w 1%nat). rewrite H1. cbn. now split.
Qed.

Lemma login_handler_internal_errors_witness :
  SampleLogin.parse (SampleLogin.login_request "ann" "$2a$hash") =
    Some (LoginRequest.mk "ann" "$2a$hash") /\
  outage (Sample.world_with_outage 0) O = true /\
  fst (@LoginHandler PlainLib.lib SampleLogin.parse SampleLogin.check
         (SampleLogin.login_request "ann" "$2a$hash") (Sample.world_with_outage 0)) =
    Respond StatusInternalServerError [("error", JString "Internal server error")] /\
  fst (@LoginHandler PlainLib.lib SampleLogin.parse SampleLogin.check
         (SampleLogin.login_request "ann" "$2a$hash") (Sample.world_with_outage 1)) =
    Respond StatusInternalServerError [("error", JString "Failed to generate tokens")].
Proof.
  split; [reflexivity|]. split; [reflexivity|]. split.
  - apply (login_handler_internal_errors PlainLib.lib SampleLogin.parse SampleLogin.check
             (SampleLogin.login_request "ann" "$2a$hash") (Sample.world_with_outage 0)
             (LoginRequest.mk "ann" "$2a$hash") eq_refl).
    reflexivity.
  - apply (login_handler_internal_errors PlainLib.lib SampleLogin.parse SampleLogin.check
             (SampleLogin.login_request "ann" "$2a$hash") (Sample.world_with_outage 1)
             (LoginRequest.mk "ann" "$2a$hash") eq_refl) with (u := Sample.ann).
    + reflexivity.
    + reflexivity.
    + repeat constructor; cbn; intuition discriminate.
    + left. reflexivity.
    + reflexivity.
    + reflexivity.
Defined.

Lemma refresh_handler_missing_token_witness :
  FormValue (Sample.refresh_request "") "refresh_token" = "" /\
  @RefreshTokenHandler PlainLib.lib (Sample.refresh_request "") Sample.world =
    (Respond StatusBadRequest [("error", JString "Missing refresh token")], Sample.world) /\
  FormValue (Sample.refresh_request "nope") "refresh_token" <> "" /\
  fst (@RefreshTokenHandler PlainLib.lib (Sample.refresh_request "nope") Sample.world) <>
    Respond StatusBadRequest [("error", JString "Missing refresh token")].
Proof.
  assert (Hne : FormValue (Sample.refresh_request "nope") "refresh_token" <> "")
    by discriminate.
  split; [reflexivity|]. split.
  - exact (proj1 (refresh_handler_missing_token PlainLib.lib (Sample.refresh_request "")
                    Sample.world) eq_refl).
  - split; [exact Hne|].
    exact (proj2 (refresh_handler_missing_token PlainLib.lib
                    (Sample.refresh_request "nope") Sample.world) Hne _).
Defined.

(** ** The dispatcher and the profile route *)

Section MiddlewareMore.

Context {L : JwtLib}.

(** The api-key branch, as a function of the lookup. *)
Lemma AuthMiddleware_api_key (c : Ctx) (w : World) :
  Get c "Authorization" = "" -> Get c "api-key" <> "" ->
  AuthMiddleware c w =
  (match fst (gorm.First_ApiKey (Get c "api-key") w) with
   | (_, Some ErrRecordNotFound) => InvalidKey
   | (_, Some _) =>
       Respond StatusInternalServerError [("error", JString "Internal server error")]
   | (k, None) => AuthenticatedAPIKey k
   end,
   snd (gorm.First_ApiKey (Get c "api-key") w)).
Proof.
  intros Ha Hk. unfold AuthMiddleware. rewrite Ha. cbn [String.eqb negb].
  destruct (String.eqb (Get c "api-key") "") eqn:E; [now apply String.eqb_eq in E|].
  cbn [negb]. unfold bind.
  destruct (gorm.First_ApiKey (Get c "api-key") w) as [[k [e|]] w'];
    [destruct e|]; reflexivity.
Qed.

Lemma AuthMiddleware_no_credentials (c : Ctx) (w : World) :
  Get c "Authorization" = "" -> Get c "api-key" = "" ->
  AuthMiddleware c w =
    (Respond StatusUnauthorized
       [("error", JString "Missing authentication (JWT or API Key)")], w).
Proof. intros Ha Hk. unfold AuthMiddleware. now rewrite Ha, Hk. Qed.

Lemma First_ApiKey_frame (key : string) (w : World) :
  store (snd (gorm.First_ApiKey key w)) = store w.
Proof.
  unfold gorm.First_ApiKey, statement.
  destruct (outage w O); [reflexivity|]. destruct (find _ _); reflexivity.
Qed.

Lemma AuthMiddleware_store (c : Ctx) (w : World) :
  store (snd (AuthMiddleware c w)) = store w.
Proof.
  destruct (String.eqb (Get c "Authorization") "") eqn:Ea.
  - apply String.eqb_eq in Ea.
    destruct (String.eqb (Get c "api-key") "") eqn:Ek.
    + apply String.eqb_eq in Ek. now rewrite AuthMiddleware_no_credentials.
    + assert (Get c "api-key" <> "") by (intros H; rewrite H in Ek; discriminate).
      rewrite AuthMiddleware_api_key by assumption. apply First_ApiKey_frame.
  - assert (Hne : Get c "Authorization" <> "") by (intros H; rewrite H in Ea; discriminate).
    rewrite (AuthMiddleware_authorization c w Hne).
    destruct (strings.Cut _ _) as [[scheme tok]|]; [|reflexivity].
    destruct (strings.EqualFold scheme "Bearer"); [|reflexivity].
    apply ValidateJWT_frame.
Qed.

(** What the middleware answers, by kind: one of its five responses, or the
    values of verified claims, or the values of a stored active key. *)
Lemma AuthMiddleware_outcomes (c : Ctx) (w : World) :
  let o := fst (AuthMiddleware c w) in
  o = MalformedHeader \/ o = InvalidToken \/ o = InvalidKey \/
  o = Respond StatusInternalServerError [("error", JString "Internal server error")] \/
  o = Respond StatusUnauthorized
        [("error", JString "Missing authentication (JWT or API Key)")] \/
  (exists claims, o = AuthenticatedJWT claims) \/
  (exists k, o = AuthenticatedAPIKey k).
Proof.
  cbv zeta.
  destruct (String.eqb (Get c "Authorization") "") eqn:Ea.
  - apply String.eqb_eq in Ea.
    destruct (String.eqb (Get c "api-key") "") eqn:Ek.
    + apply String.eqb_eq in Ek. rewrite AuthMiddleware_no_credentials by assumption.
      auto 10.
    + assert (Get c "api-key" <> "") by (intros H; rewrite H in Ek; discriminate).
      rewrite AuthMiddleware_api_key by assumption. cbn [fst].
      destruct (fst (gorm.First_ApiKey _ w)) as [k [e|]]; [destruct e|]; eauto 10.
  - assert (Hne : Get c "Authorization" <> "") by (intros H; rewrite H in Ea; discriminate).
    rewrite (AuthMiddleware_authorization c w Hne).
    destruct (strings.Cut _ _) as [[scheme tok]|]; [|auto].
    destruct (strings.EqualFold scheme "Bearer"); [|auto]. cbn [fst].
    destruct (ValidateJWT_cases tok w) as [[cl H]|[e H]]; rewrite H; cbn; eauto 10.
Qed.

Lemma ProfileHandler_JWT (claims : Claims.t) (locals : list (string * Local)) :
  Next locals = AuthenticatedJWT claims ->
  ProfileHandler locals =
    ReplyJSON StatusOK
      [("user_id", Some (JNumber (Z.of_N (Claims.UserID claims))));
       ("role", Some (JString (Claims.Role claims)));
       ("access_by", Some (JString "JWT"))].
Proof. intros [= ->]. reflexivity. Qed.

Lemma ProfileHandler_APIKey (k : ApiKey.t) (locals : list (string * Local)) :
  Next locals = AuthenticatedAPIKey k ->
  ProfileHandler locals =
    ReplyJSON StatusOK
      [("client_id", Some (JString (ApiKey.Client k)));
       ("role", Some (JString (ApiKey.Scope k)));
       ("access_by", Some (JString "APIKey"));
       ("user_id", Some (JNumber (Z.of_N (ApiKey.UserID k))))].
Proof. intros [= ->]. reflexivity. Qed.

End MiddlewareMore.

(** X18.  The middleware answers 401 "Missing authentication" exactly when
    the request has neither an Authorization nor an api-key header (or both
    are empty); it then reads nothing from the store or the clock. *)
Theorem middleware_missing_credentials (L : JwtLib) (c : Ctx) (w : World) :
  let missing :=
    Respond StatusUnauthorized
      [("error", JString "Missing authentication (JWT or API Key)")] in
  (fst (AuthMiddleware c w) = missing <->
   Get c "Authorization" = "" /\ Get c "api-key" = "") /\
  (fst (AuthMiddleware c w) = missing -> snd (AuthMiddleware c w) = w).
Proof.
  cbv zeta.
  assert (Hiff : fst (AuthMiddleware c w) =
                   Respond StatusUnauthorized
                     [("error", JString "Missing authentication (JWT or API Key)")] ->
                 Get c "Authorization" = "" /\ Get c "api-key" = "").
  { destruct (String.eqb (Get c "Authorization") "") eqn:Ea.
    - apply String.eqb_eq in Ea.
      destruct (String.eqb (Get c "api-key") "") eqn:Ek.
      + apply String.eqb_eq in Ek. now split.
      + assert (Get c "api-key" <> "") by (intros H; rewrite H in Ek; discriminate).
        rewrite AuthMiddleware_api_key by assumption. cbn [fst].
        destruct (fst (gorm.First_ApiKey _ w)) as [k [e|]]; [destruct e|]; discriminate.
    - assert (Hne : Get c "Authorization" <> "")
        by (intros H; rewrite H in Ea; discriminate).
      rewrite (AuthMiddleware_authorization c w Hne).
      destruct (strings.Cut _ _) as [[scheme tok]|]; [|discriminate].
      destruct (strings.EqualFold scheme "Bearer"); [|discriminate]. cbn [fst].
      destruct (fst (ValidateJWT tok w)) as [[cl|] [e|]]; discriminate. }
  split; [split|].
  - exact Hiff.
  - intros [Ha Hk]. now rewrite AuthMiddleware_no_credentials.
  - intros H. apply Hiff in H as [Ha Hk]. now rewrite AuthMiddleware_no_credentials.
Qed.

(** X19.  On the api-key path a failure of the store is answered 500
    "Internal server error", whatever the key and the table hold: it is told
    apart from an invalid or inactive key, which is answered 401. *)
Theorem middleware_api_key_store_failure (L : JwtLib) (c : Ctx) (w : World) :
  Get c "Authorization" = "" -> Get c "api-key" <> "" -> outage w O = true ->
  fst (AuthMiddleware c w) =
    Respond StatusInternalServerError [("error", JString "Internal server error")] /\
  fst (AuthMiddleware c w) <> InvalidKey.
Proof.
  intros Ha Hk Hdown. rewrite AuthMiddleware_api_key by assumption.
  unfold gorm.First_ApiKey, statement. rewrite Hdown. cbn. split; [reflexivity|discriminate].
Qed.

Lemma middleware_api_key_store_failure_witness :
  Get (Sample.request "" "k-1") "Authorization" = "" /\
  Get (Sample.request "" "k-1") "api-key" <> "" /\
  outage (Sample.world_with_outage 0) O = true /\
  fst (@AuthMiddleware PlainLib.lib (Sample.request "" "k-1") (Sample.world_with_outage 0)) =
    Respond StatusInternalServerError [("error", JString "Internal server error")].
Proof.
  assert (Hk : Get (Sample.request "" "k-1") "api-key" <> "") by discriminate.
  split; [reflexivity|]. split; [exact Hk|]. split; [reflexivity|].
  exact (proj1 (middleware_api_key_store_failure PlainLib.lib (Sample.request "" "k-1")
                  (Sample.world_with_outage 0) eq_refl Hk eq_refl)).
Defined.

(** X20.  The middleware never writes: for every request and every world the
    tables are the same after it as before, on every path. *)
Theorem middleware_never_writes (L : JwtLib) (c : Ctx) (w : World) :
  store (snd (AuthMiddleware c w)) = store w.
Proof. apply AuthMiddleware_store. Qed.

(** X21.  The middleware never panics: the claims it dereferences after a
    verification without error are never nil.  Every answer is one of its
    five responses or a pass with the values of claims or of a key. *)
Theorem middleware_never_panics (L : JwtLib) (c : Ctx) (w : World) :
  fst (AuthMiddleware c w) <> Panic.
Proof.
  pose proof (AuthMiddleware_outcomes c w) as H. cbv zeta in H.
  destruct H as [H|[H|[H|[H|[H|[[cl H]|[k H]]]]]]]; rewrite H; discriminate.
Qed.

(** X22.  GET /user/profile with a bearer token that verifies: the answer is
    200 with the user id and the role of the verified claims and
    access_by "JWT". *)
Theorem profile_route_jwt (L : JwtLib) (c : Ctx) (w : World)
  (scheme tok : string) (claims : Claims.t) :
  Get c "Authorization" = scheme ++ " " ++ tok ->
  strings.Contains scheme " " = false -> strings.EqualFold scheme "Bearer" = true ->
  fst (ValidateJWT tok w) = (Some claims, None) ->
  fst (profile_route c w) =
    ReplyJSON StatusOK
      [("user_id", Some (JNumber (Z.of_N (Claims.UserID claims))));
       ("role", Some (JString (Claims.Role claims)));
       ("access_by", Some (JString "JWT"))].
Proof.
  intros Hh Hs Hb Hv. unfold profile_route, bind, ret.
  assert (Hne : Get c "Authorization" <> "").
  { rewrite Hh. destruct scheme; discriminate. }
  rewrite (AuthMiddleware_authorization c w Hne).
  rewrite (proj2 (Cut_some _ scheme tok " ") (conj Hh Hs)), Hb, Hv.
  reflexivity.
Qed.

Lemma profile_route_jwt_witness :
  let tok := fst (fst (@GenerateAccessToken PlainLib.lib 42 "admin" Sample.world)) in
  strings.EqualFold "BEARER" "Bearer" = true /\
  fst (@ValidateJWT PlainLib.lib tok (Sample.world_at 10)) =
    (Some (Claims.mk 42 "admin" (jwt.mkRegisteredClaims (Some 900) None None)), None) /\
  fst (@profile_route PlainLib.lib (Sample.request ("BEARER " ++ tok) "k-1")
         (Sample.world_at 10)) =
    ReplyJSON StatusOK
      [("user_id", Some (JNumber 42)); ("role", Some (JString "admin"));
       ("access_by", Some (JString "JWT"))].
Proof.
  cbv zeta. split; [reflexivity|]. split; [reflexivity|].
  apply (profile_route_jwt PlainLib.lib
           (Sample.request
              ("BEARER " ++
               fst (fst (@GenerateAccessToken PlainLib.lib 42 "admin" Sample.world))) "k-1")
           (Sample.world_at 10) "BEARER"
           (fst (fst (@GenerateAccessToken PlainLib.lib 42 "admin" Sample.world)))
           (Claims.mk 42 "admin" (jwt.mkRegisteredClaims (Some 900) None None)));
    reflexivity.
Defined.

(** X23.  GET /user/profile with an active API key and no Authorization
    header: the answer is 200 with the key's client, its scope under the
    name "role", access_by "APIKey" and the key's user id. *)
Theorem profile_route_api_key (L : JwtLib) (c : Ctx) (w : World) (k : ApiKey.t) :
  Get c "Authorization" = "" -> Get c "api-key" = ApiKey.Key k -> ApiKey.Key k <> "" ->
  outage w O = false -> wf_db (store w) ->
  In k (api_keys (store w)) -> ApiKey.IsActive k = true ->
  fst (profile_route c w) =
    ReplyJSON StatusOK
      [("client_id", Some (JString (ApiKey.Client k)));
       ("role", Some (JString (ApiKey.Scope k)));
       ("access_by", Some (JString "APIKey"));
       ("user_id", Some (JNumber (Z.of_N (ApiKey.UserID k))))].
Proof.
  intros Ha Hk Hne Hup (_ & _ & _ & _ & Hnd) Hin Hact. unfold profile_route, bind, ret.
  rewrite AuthMiddleware_api_key by (assumption || now rewrite Hk).
  rewrite Hk. unfold gorm.First_ApiKey, statement. rewrite Hup.
  destruct (find _ (api_keys (store w))) as [k0|] eqn:Ef.
  - apply find_some in Ef as [Hin0 Hp]. apply andb_true_iff in Hp as [Hk0 _].
    apply String.eqb_eq in Hk0.
    assert (k0 = k) as -> by now apply (NoDup_map_inj ApiKey.Key (api_keys (store w))).
    reflexivity.
  - apply (find_none _ _ Ef) in Hin. cbv beta in Hin.
    rewrite String.eqb_refl, Hact in Hin. discriminate.
Qed.

Lemma profile_route_api_key_witness :
  wf_db (store Sample.world) /\ outage Sample.world O = false /\
  fst (@profile_route PlainLib.lib (Sample.request "" "k-1") Sample.world) =
    ReplyJSON StatusOK
      [("client_id", Some (JString "ci")); ("role", Some (JString "deploy"));
       ("access_by", Some (JString "APIKey")); ("user_id", Some (JNumber 7))].
Proof.
  split; [exact wf_sample|]. split; [reflexivity|].
  apply (profile_route_api_key PlainLib.lib (Sample.request "" "k-1") Sample.world
           (ApiKey.mk "k-1" 7 "ci" "deploy" true)).
  - reflexivity.
  - reflexivity.
  - discriminate.
  - reflexivity.
  - exact wf_sample.
  - left. reflexivity.
  - reflexivity.
Defined.

(** X24.  Behind the middleware the profile handler never panics and never
    gives its own 401 "Unauthorized access": the values its type assertions
    read are always the ones the middleware stored, and the auth type is
    always "JWT" or "APIKey". *)
Theorem profile_route_never_panics (L : JwtLib) (c : Ctx) (w : World) :
  fst (profile_route c w) <> ReplyPanic /\
  fst (profile_route c w) <>
    ReplyJSON StatusUnauthorized [("error", Some (JString "Unauthorized access"))].
Proof.
  unfold profile_route, bind, ret.
  pose proof (AuthMiddleware_outcomes c w) as H. cbv zeta in H.
  destruct (AuthMiddleware c w) as [o w']. cbn [fst] in *.
  destruct H as [H|[H|[H|[H|[H|[[cl H]|[k H]]]]]]]; subst o;
    split; discriminate.
Qed.

Lemma middleware_missing_credentials_witness :
  Get (mkCtx [] []) "Authorization" = "" /\ Get (mkCtx [] []) "api-key" = "" /\
  fst (@AuthMiddleware PlainLib.lib (mkCtx [] []) Sample.world) =
    Respond StatusUnauthorized
      [("error", JString "Missing authentication (JWT or API Key)")].
Proof.
  split; [reflexivity|]. split; [reflexivity|].
  exact (proj2 (proj1 (middleware_missing_credentials PlainLib.lib (mkCtx [] [])
                         Sample.world)) (conj eq_refl eq_refl)).
Defined.
